(** * NNData: a train/test data manager

    A shallow embedding of [main.py] (class [NNData] and its helpers).

    Conventions of the embedding.
    - Python's [None] is [None] of an [option]; a present list is [Some l].
    - Row indices are natural numbers (they are array positions).
    - A Python float is the rational number it stands for ([Q]); a
      product of floats is rounded to the nearest double, ties to even,
      and a decimal literal is the double nearest to it.  The train factor
      is a number: a factor that is not a number (NaN) is outside the
      model.
    - An instance is a record that methods transform; a method that raises
      hands back the instance as it stands when the exception leaves,
      since the caller still holds a reference to it.
    - [random.randint] reads the next value of an arbitrary sequence of raw
      numbers and reduces it into the requested closed range; the position
      in that sequence is the state of the generator.
    - The [while] loop of [split_set] is unbounded, so it runs on fuel. *)

From Stdlib Require Import String.
From Stdlib Require Import List Arith PeanoNat ZArith QArith Qround Qminmax.
From Stdlib Require Import Qpower Qabs Lqa.
From Stdlib Require Import Lia Bool Permutation Sorted Mergesort.
Import ListNotations.

Close Scope Q_scope.
Open Scope nat_scope.

(** ** Exceptions and outcomes *)

(** [DataMismatchError] is the repository's own exception; the other three
    are the built-in ones that the modelled statements can raise. *)
Inductive exn : Type :=
| DataMismatchError
| ValueError
| TypeError
| IndexError.

(** What a call leaves behind: the state on normal return, the exception
    with the state at the time it is raised, or nothing when the fuel of
    a loop ran out before the loop's condition became false. *)
Inductive outcome (St : Type) : Type :=
| Returned (s : St)
| Raised (e : exn) (s : St)
| OutOfFuel.

Arguments Returned {St} s.
Arguments Raised {St} e s.
Arguments OutOfFuel {St}.

(** ** [NNData.percentage_limiter] *)

Definition percentage_limiter (percentage : Q) : Q :=
  if Qlt_le_dec 1 percentage then 1%Q
  else if Qlt_le_dec percentage 0 then 0%Q
  else percentage.

(** ** Floating point *)

(** [2^k] *)
Definition two_power (k : N) : positive := Pos.shiftl 1 k.

(** The integer nearest to [x], the even one of the two when [x] lies
    halfway. *)
Definition round_half_even (x : Q) : Z :=
  let f := Qfloor x in
  match (x - inject_Z f ?= 1 # 2)%Q with
  | Lt => f
  | Eq => if Z.even f then f else (f + 1)%Z
  | Gt => (f + 1)%Z
  end.

(** [floor(log2 x)] for a positive [x]: the two logarithms of numerator
    and denominator give it up to one. *)
Definition ilog2 (x : Q) : Z :=
  let d := (Z.log2 (Qnum x) - Z.log2 (Zpos (Qden x)))%Z in
  if Qle_bool (Qpower 2 d) x then d else (d - 1)%Z.

(** The number of binary digits that a double keeps behind the point for
    a positive [x]: 53 significant bits, and at most 1074 digits behind
    the point (the subnormal numbers). *)
Definition fraction_bits (x : Q) : N := Z.to_N (Z.min 1074 (52 - ilog2 x)).

(** The double nearest to [x >= 0], ties to even.  A list has fewer than
    [2^53] entries (one of that length does not fit into memory), so no
    product of [2^53] or more is formed; such a number is left as it
    is. *)
Definition round_magnitude (x : Q) : Q :=
  if Qle_bool (inject_Z (2 ^ 53)) x then x
  else
    let k := fraction_bits x in
    Qmake (round_half_even (x * inject_Z (Zpos (two_power k))))
          (two_power k).

Definition round_double (x : Q) : Q :=
  if Qle_bool 0 x then round_magnitude x
  else (- round_magnitude (- x))%Q.

(** A decimal literal such as [.9] in the source. *)
Definition py_float (literal : Q) : Q := round_double literal.

(** ** Membership test and random draws *)

(** [r in l] on a list of integers. *)
Definition py_in (r : nat) (l : list nat) : bool := existsb (Nat.eqb r) l.

(** [random.randint(a, b)] at the raw value [raw] of the generator. *)
Definition randint (a b raw : nat) : nat := a + raw mod (b - a + 1).

(** [list.sort()] on a list of integers. *)
Definition py_sort (l : list nat) : list nat := NatSort.sort l.

Section NNData.

(** What the caller passes as one entry of [features] or [labels], and
    what the numeric array holds for it. *)
Variable elem : Type.
Variable row : Type.

(** The conversion of one entry to floating point; [None] when it cannot
    be converted. *)
Variable coerce : elem -> option row.

(** The shape of one entry: [[]] for a number, [[w]] for a row of [w]
    numbers, and so on for deeper nesting. *)
Variable shape : elem -> list nat.

(** Every entry converted, in order; [None] when one cannot be. *)
Fixpoint coerce_all (l : list elem) : option (list row) :=
  match l with
  | [] => Some []
  | x :: t =>
      match coerce x with
      | None => None
      | Some r =>
          match coerce_all t with
          | None => None
          | Some a => Some (r :: a)
          end
      end
  end.

(** All entries have the shape of the first one. *)
Definition same_shape (l : list elem) : bool :=
  match l with
  | [] => true
  | x :: t =>
      forallb (fun y => if list_eq_dec Nat.eq_dec (shape y) (shape x)
                        then true else false) t
  end.

(** Modelled from the spec: numpy's [np.array(_, dtype=float)], which is
    not part of the repository.  Sections 2, 3 and 4.1: the sequences are
    coerced "into fixed-width numeric arrays"; "attempt numeric coercion of
    every row in both sequences to floating-point vectors.  If any element
    cannot be coerced, ... fail with [ValueError]".  An array has one
    shape, so entries of different shapes (ragged rows) are refused with
    the same [ValueError].  [None] stands for that [ValueError]. *)
Definition np_array (l : list elem) : option (list row) :=
  if same_shape l then coerce_all l else None.

(** The attributes of an instance.  The two pools are [deque]s that the
    modelled methods create empty and never touch again. *)
Record NNData : Type := mkNNData {
  _features : option (list row);
  _labels : option (list row);
  _train_factor : Q;
  _train_indices : list nat;
  _test_indices : list nat;
  _train_pool : list nat;
  _test_pool : list nat
}.

Definition set_features (v : option (list row)) (self : NNData) : NNData :=
  mkNNData v (_labels self) (_train_factor self) (_train_indices self)
           (_test_indices self) (_train_pool self) (_test_pool self).

Definition set_labels (v : option (list row)) (self : NNData) : NNData :=
  mkNNData (_features self) v (_train_factor self) (_train_indices self)
           (_test_indices self) (_train_pool self) (_test_pool self).

Definition set_train_factor (v : Q) (self : NNData) : NNData :=
  mkNNData (_features self) (_labels self) v (_train_indices self)
           (_test_indices self) (_train_pool self) (_test_pool self).

Definition set_train_indices (v : list nat) (self : NNData) : NNData :=
  mkNNData (_features self) (_labels self) (_train_factor self) v
           (_test_indices self) (_train_pool self) (_test_pool self).

Definition set_test_indices (v : list nat) (self : NNData) : NNData :=
  mkNNData (_features self) (_labels self) (_train_factor self)
           (_train_indices self) v (_train_pool self) (_test_pool self).

Definition set_pools (tr te : list nat) (self : NNData) : NNData :=
  mkNNData (_features self) (_labels self) (_train_factor self)
           (_train_indices self) (_test_indices self) tr te.

(** [self._features = None; self._labels = None] *)
Definition set_absent (self : NNData) : NNData :=
  set_labels None (set_features None self).

(** ** [NNData.load_data] *)

Definition load_data (features labels : option (list elem))
           (self : NNData) : outcome NNData :=
  match features with
  | None => Returned (set_absent self)
  | Some fs =>
      match labels with
      | None => Raised TypeError self           (* len(None) *)
      | Some ls =>
          if negb (length fs =? length ls)
          then Raised DataMismatchError (set_absent self)
          else
            match np_array fs with
            | None => Raised ValueError (set_absent self)
            | Some fa =>
                let self1 := set_features (Some fa) self in
                match np_array ls with
                | None => Raised ValueError (set_absent self1)
                | Some la => Returned (set_labels (Some la) self1)
                end
            end
      end
  end.


(** The generator behind [random]: the raw value delivered at each
    position. *)
Variable rng : nat -> nat.

(** ** [NNData.split_set] *)

(** The sampling loop (lines 90-95).  [number] is
    [number_of_training_examples], [train] is [self._train_indices] and [k]
    the position of the generator.  An empty [available_indices] makes
    [available_indices[0]] raise [IndexError]. *)
Fixpoint sampling_loop (fuel : nat) (available_indices : list nat)
  (number : Z) (train : list nat) (k : nat) : outcome (list nat * nat) :=
  if (Z.of_nat (length train) <? number)%Z then
    match fuel with
    | 0 => OutOfFuel
    | S fuel' =>
        match available_indices with
        | [] => Raised IndexError (train, k)
        | first :: _ =>
            let r := randint first (last available_indices first) (rng k) in
            if py_in r train
            then sampling_loop fuel' available_indices number train (S k)
            else sampling_loop fuel' available_indices number
                               (train ++ [r]) (S k)
        end
    end
  else Returned (train, k).

(** The loop over [available_indices] (lines 97-101): every index that is
    not a training index is appended to [self._test_indices]. *)
Definition collect_test (available_indices train test : list nat)
  : list nat :=
  fold_left (fun acc i => if py_in i train then acc else acc ++ [i])
            available_indices test.

(** [floor(size * self._train_factor)]: the product is a float. *)
Definition number_of_training_examples (size : nat) (train_factor : Q) : Z :=
  Qfloor (round_double (inject_Z (Z.of_nat size) * train_factor)).

Definition split_set (fuel : nat) (new_train_factor : option Q)
  (self : NNData) (k : nat) : outcome (NNData * nat) :=
  match _features self with
  | None =>
      Returned (set_test_indices [] (set_train_indices [] self), k)
  | Some fs =>
      let self1 :=
        match new_train_factor with
        | Some f => set_train_factor (percentage_limiter f) self
        | None => self
        end in
      let size := length fs in
      let available_indices := seq 0 size in
      let number := number_of_training_examples size (_train_factor self1) in
      match sampling_loop fuel available_indices number
                          (_train_indices self1) k with
      | OutOfFuel => OutOfFuel
      | Raised e (train, k') => Raised e (set_train_indices train self1, k')
      | Returned (train, k') =>
          let self2 := set_train_indices train self1 in
          let test := collect_test available_indices train
                                   (_test_indices self2) in
          let self3 := set_test_indices test self2 in
          Returned (set_test_indices (py_sort test)
                      (set_train_indices (py_sort train) self3), k')
      end
  end.

(** ** [NNData.__init__] *)

(** An instance before the constructor has assigned anything.  No
    attribute is read before the constructor assigns it, so the values
    here are never observed. *)
Definition blank : NNData := mkNNData None None 0%Q [] [] [] [].

(** [try: self.load_data(...) except (DataMismatchError, ValueError):
    self._features = None; self._labels = None] *)
Definition try_load_data (features labels : option (list elem))
  (self : NNData) : outcome NNData :=
  match load_data features labels self with
  | Raised DataMismatchError s => Returned (set_absent s)
  | Raised ValueError s => Returned (set_absent s)
  | other => other
  end.

Definition __init__ (fuel : nat) (features labels : option (list elem))
  (train_factor : Q) (k : nat) : outcome (NNData * nat) :=
  let after_features :=
    match features with
    | None => Returned (set_features (Some []) blank)
    | Some _ => try_load_data features labels blank
    end in
  match after_features with
  | OutOfFuel => OutOfFuel
  | Raised e s => Raised e (s, k)
  | Returned s1 =>
      let after_labels :=
        match labels with
        | None => Returned (set_labels (Some []) s1)
        | Some _ => try_load_data features labels s1
        end in
      match after_labels with
      | OutOfFuel => OutOfFuel
      | Raised e s => Raised e (s, k)
      | Returned s2 =>
          let s3 := set_train_factor (percentage_limiter train_factor) s2 in
          let s4 := set_test_indices [] (set_train_indices [] s3) in
          let s5 := set_pools [] [] s4 in
          split_set fuel None s5 k
      end
  end.

End NNData.

Arguments coerce_all {elem row} coerce l.
Arguments same_shape {elem} shape l.
Arguments np_array {elem row} coerce shape l.
Arguments mkNNData {row}.
Arguments _features {row} n.
Arguments _labels {row} n.
Arguments _train_factor {row} n.
Arguments _train_indices {row} n.
Arguments _test_indices {row} n.
Arguments _train_pool {row} n.
Arguments _test_pool {row} n.
Arguments set_features {row} v self.
Arguments set_labels {row} v self.
Arguments set_train_factor {row} v self.
Arguments set_train_indices {row} v self.
Arguments set_test_indices {row} v self.
Arguments set_pools {row} tr te self.
Arguments set_absent {row} self.
Arguments load_data {elem row} coerce shape features labels self.
Arguments split_set {row} rng fuel new_train_factor self k.
Arguments blank {row}.
Arguments try_load_data {elem row} coerce shape features labels self.
Arguments __init__ {elem row} coerce shape rng fuel features labels train_factor k.

(** ** The data of [unit_test] and [unit_test1] *)

(** One cell of a row as the tests write it: a number, or a string that
    [float()] rejects (["Cat"], ["Green"]). *)
Inductive cell : Type :=
| Num (q : Q)
| Word (s : String.string).

Definition float_of_cell (c : cell) : option Q :=
  match c with
  | Num q => Some q
  | Word _ => None
  end.

(** A cell is a number as far as its shape goes; a row of cells has its
    width as shape. *)
Definition cell_shape (c : cell) : list nat := [].
Definition row_shape (r : list cell) : list nat := [length r].

(** A row of cells becomes a row of floats when each cell does. *)
Definition float_row : list cell -> option (list Q) :=
  np_array float_of_cell cell_shape.

Definition nums (l : list Z) : list cell := map (fun z => Num (inject_Z z)) l.

Definition xor_features : list (list cell) :=
  [nums [0; 0]; nums [1; 0]; nums [0; 1]; nums [1; 1]]%Z.

Definition xor_labels : list (list cell) :=
  [nums [0]; nums [1]; nums [1]; nums [0]]%Z.

Definition bad_features_lengths : list (list cell) :=
  [nums [0; 0]; nums [1; 0]]%Z.

Definition bad_features_values : list (list cell) :=
  [nums [0; 0]%Z; [Num 1; Word "Cat"%string]; nums [0; 1]%Z; [Num 1; Word "Green"%string]].

Definition bad_label_value : list (list cell) :=
  [nums [0]%Z; nums [1]%Z; [Word "Cat"%string]; nums [0]%Z].

(** Two rows of different width, all cells numbers, and labels for
    them. *)
Definition ragged_features : list (list cell) := [nums [0; 0]; nums [1]]%Z.
Definition two_labels : list (list cell) := [nums [0]; nums [1]]%Z.

(** [list(range(10))], the one-dimensional data of [unit_test1]. *)
Definition range10 : list cell :=
  map (fun i => Num (inject_Z (Z.of_nat i))) (seq 0 10).

(** Generators used to run the model: one that counts up, one that is
    stuck at zero. *)
Definition counting_rng : nat -> nat := fun i => i.
Definition stuck_rng : nat -> nat := fun _ => 0.

(** The train factor that a call of [split_set] on present features works
    with: the clamped new one when one is given, else the stored one. *)
Definition factor_in_use {row : Type} (new_train_factor : option Q)
  (self : NNData row) : Q :=
  match new_train_factor with
  | Some f => percentage_limiter f
  | None => _train_factor self
  end.

(** ** What a partition of [n] rows at ratio [r] has to satisfy *)

(** The invariants of the index partition: the two lists share no index,
    each is strictly ascending (hence free of duplicates), together they
    hold exactly the indices below [n], and the training list has
    [floor(n * r)] entries. *)
Definition index_partition (n : nat) (r : Q) (train test : list nat) : Prop :=
  (forall i, In i train -> ~ In i test)
  /\ StronglySorted lt train
  /\ StronglySorted lt test
  /\ (forall i, In i train \/ In i test <-> i < n)
  /\ Z.of_nat (length train) = number_of_training_examples n r.

(** A generator serves the range [0 .. n-1] from position [k] on when each
    index of the range is drawn at some position from [k] on. *)
Definition serves (rng : nat -> nat) (n k : nat) : Prop :=
  forall i, i < n -> exists j, k <= j /\ randint 0 (n - 1) (rng j) = i.

(** ** The calls of [unit_test1] *)

(** [our_data_0 = NNData(x, y)] with the default train factor, followed by
    [our_data_0.split_set(.3)]. *)
Definition construct_then_split {elem row : Type}
  (coerce : elem -> option row) (shape : elem -> list nat)
  (rng : nat -> nat) (fuel : nat)
  (x y : list elem) : outcome (NNData row * nat) :=
  match __init__ coerce shape rng fuel (Some x) (Some y) (py_float (9 # 10)) 0 with
  | Returned (our_data_0, k) =>
      split_set rng fuel (Some (py_float (3 # 10))) our_data_0 k
  | other => other
  end.

(** The same with [split_set(.3)] called a second time. *)
Definition construct_then_split_twice {elem row : Type}
  (coerce : elem -> option row) (shape : elem -> list nat)
  (rng : nat -> nat) (fuel : nat)
  (x y : list elem) : outcome (NNData row * nat) :=
  match construct_then_split coerce shape rng fuel x y with
  | Returned (our_data_0, k) =>
      split_set rng fuel (Some (py_float (3 # 10))) our_data_0 k
  | other => other
  end.

(** ** The functions that exercise the class *)



(** What a check of [unit_test] prints. *)
Inductive verdict : Type :=
| SUCCESS
| FAIL.

(** The two [try] blocks of [unit_test] (lines 183-198): an instance
    without data, then [load_data] on [features] and the good labels; only
    [expected] is caught. *)
Definition check_load_raises (expected : exn) (features : list (list cell))
  (rng : nat -> nat) (fuel k : nat) : outcome (list verdict * nat) :=
  let caught (e : exn) (k' : nat) : outcome (list verdict * nat) :=
    match expected, e with
    | DataMismatchError, DataMismatchError => Returned ([SUCCESS], k')
    | ValueError, ValueError => Returned ([SUCCESS], k')
    | TypeError, TypeError => Returned ([SUCCESS], k')
    | IndexError, IndexError => Returned ([SUCCESS], k')
    | _, _ => Raised e ([], k')
    end in
  match __init__ float_row row_shape rng fuel None None (py_float (9 # 10)) k with
  | OutOfFuel => OutOfFuel
  | Raised e (_, k') => caught e k'
  | Returned (test, k') =>
      match load_data float_row row_shape (Some features) (Some xor_labels) test with
      | OutOfFuel => OutOfFuel
      | Raised e _ => caught e k'
      | Returned _ => Returned ([FAIL], k')
      end
  end.

(** The checks outside a [try] block (lines 202-233): build an instance,
    then test it. *)
Definition check_constructed (features labels : list (list cell))
  (train_factor : Q) (passes : NNData (list Q) -> bool)
  (rng : nat -> nat) (fuel k : nat) : outcome (list verdict * nat) :=
  match __init__ float_row row_shape rng fuel (Some features) (Some labels)
                 train_factor k with
  | OutOfFuel => OutOfFuel
  | Raised e (_, k') => Raised e ([], k')
  | Returned (test, k') =>
      Returned ([if passes test then SUCCESS else FAIL], k')
  end.

(** Run [next] after [first], keeping what was printed. *)
Definition then_check (first : outcome (list verdict * nat))
  (next : nat -> outcome (list verdict * nat))
  : outcome (list verdict * nat) :=
  match first with
  | Returned (printed, k) =>
      match next k with
      | Returned (more, k') => Returned (printed ++ more, k')
      | Raised e (more, k') => Raised e (printed ++ more, k')
      | OutOfFuel => OutOfFuel
      end
  | other => other
  end.

(** [test3._labels is None and test3._features is None] *)
Definition both_absent (test : NNData (list Q)) : bool :=
  match _labels test, _features test with
  | None, None => true
  | _, _ => false
  end.

Definition unit_test (rng : nat -> nat) (fuel k : nat)
  : outcome (list verdict * nat) :=
  then_check
    (then_check
       (then_check
          (then_check
             (then_check
                (check_load_raises DataMismatchError bad_features_lengths
                                   rng fuel k)
                (check_load_raises ValueError bad_features_values rng fuel))
             (check_constructed bad_features_values xor_labels (py_float (8 # 10))
                                both_absent rng fuel))
          (check_constructed xor_features bad_label_value (py_float (8 # 10))
                             both_absent rng fuel))
       (check_constructed xor_features xor_labels (-5)%Q
          (fun test5 => Qeq_bool (_train_factor test5) 0) rng fuel))
    (check_constructed xor_features xor_labels 5%Q
       (fun test6 => Qeq_bool (_train_factor test6) 1) rng fuel).




(** Sanity runs of the model on the data of the tests. *)

Example load_xor_runs :
  exists s k,
    __init__ float_row row_shape counting_rng 10 (Some xor_features) (Some xor_labels)
             1%Q 0 = Returned (s, k)
    /\ _train_indices s = [0; 1; 2; 3] /\ _test_indices s = [].
Proof. eexists; eexists; vm_compute; repeat split. Qed.

Example test3_runs :
  exists s,
    __init__ float_row row_shape counting_rng 10 (Some bad_features_values)
             (Some xor_labels) (py_float (8 # 10)) 0 = Returned (s, 0)
    /\ _features s = None /\ _labels s = None.
Proof. eexists; vm_compute; repeat split. Qed.

Example test1_runs :
  exists s s',
    __init__ float_row row_shape counting_rng 10 None None (py_float (9 # 10)) 0
    = Returned (s, 0)
    /\ load_data float_row row_shape (Some bad_features_lengths) (Some xor_labels) s
       = Raised DataMismatchError s'.
Proof. eexists; eexists; vm_compute; repeat split. Qed.

(** * Properties *)

(** ** The ratio clamp *)

(** C6: [percentage_limiter] is the clamp [max(0, min(1, value))] on every
    rational input, its result lies in the closed unit interval, it sends
    [-5] to [0] and [5] to [1], and it returns an input of the unit
    interval as it is. *)
Theorem percentage_limiter_is_clamp (value : Q) :
  (percentage_limiter value == Qmax 0 (Qmin 1 value))%Q
  /\ (0 <= percentage_limiter value <= 1)%Q
  /\ percentage_limiter (-5) = 0%Q
  /\ percentage_limiter 5 = 1%Q
  /\ ((0 <= value <= 1)%Q -> percentage_limiter value = value).
Proof.
  unfold percentage_limiter.
  split; [|split; [|split; [reflexivity|split; [reflexivity|]]]].
  - destruct (Qlt_le_dec 1 value) as [Hhi|Hhi].
    + rewrite (Q.min_l 1 value) by (apply Qlt_le_weak; exact Hhi).
      rewrite Q.max_r; [reflexivity | discriminate].
    + rewrite (Q.min_r 1 value) by exact Hhi.
      destruct (Qlt_le_dec value 0) as [Hlo|Hlo].
      * rewrite Q.max_l; [reflexivity | apply Qlt_le_weak; exact Hlo].
      * rewrite Q.max_r; [reflexivity | exact Hlo].
  - destruct (Qlt_le_dec 1 value) as [Hhi|Hhi].
    + split; discriminate.
    + destruct (Qlt_le_dec value 0) as [Hlo|Hlo].
      * split; discriminate.
      * split; assumption.
  - intros [Hlo Hhi].
    destruct (Qlt_le_dec 1 value) as [H1|H1].
    + exfalso. apply (Qlt_not_le _ _ H1). exact Hhi.
    + destruct (Qlt_le_dec value 0) as [H0|H0].
      * exfalso. apply (Qlt_not_le _ _ H0). exact Hlo.
      * reflexivity.
Qed.

Lemma percentage_limiter_is_clamp_witness :
  (0 <= 1 # 2 <= 1)%Q /\ percentage_limiter (1 # 2) = (1 # 2)%Q.
Proof.
  assert (H : (0 <= 1 # 2 <= 1)%Q) by (split; discriminate).
  split; [exact H|].
  exact (proj2 (proj2 (proj2 (proj2
           (percentage_limiter_is_clamp (1 # 2))))) H).
Defined.

Section Loading.

Variables elem row : Type.
Variable coerce : elem -> option row.
Variable shape : elem -> list nat.

(** *** Facts about the array conversion *)

Lemma coerce_all_length (l : list elem) (a : list row) :
  coerce_all coerce l = Some a -> length a = length l.
Proof.
  revert a. induction l as [|x t IH]; simpl; intros a H.
  - injection H as <-. reflexivity.
  - destruct (coerce x); [|discriminate].
    destruct (coerce_all coerce t) as [b|]; [|discriminate].
    injection H as <-. simpl. f_equal. apply IH. reflexivity.
Qed.

Lemma coerce_all_entries (l : list elem) (a : list row) :
  coerce_all coerce l = Some a ->
  Forall2 (fun x r => coerce x = Some r) l a.
Proof.
  revert a. induction l as [|x t IH]; simpl; intros a H.
  - injection H as <-. constructor.
  - destruct (coerce x) as [r|] eqn:Hx; [|discriminate].
    destruct (coerce_all coerce t) as [b|]; [|discriminate].
    injection H as <-. constructor; [exact Hx | apply IH; reflexivity].
Qed.

Lemma coerce_all_fails_iff (l : list elem) :
  coerce_all coerce l = None <-> exists x, In x l /\ coerce x = None.
Proof.
  induction l as [|x t IH]; simpl.
  - split; [discriminate | intros (y & [] & _)].
  - destruct (coerce x) eqn:Hx.
    + destruct (coerce_all coerce t) as [b|].
      * split; [discriminate|].
        intros (y & [<-|Hy] & Hn); [congruence|].
        assert (Hb : Some b = None) by (apply IH; exists y; split; assumption).
        discriminate Hb.
      * split; [|reflexivity]. intros _.
        destruct (proj1 IH eq_refl) as (y & Hy & Hn).
        exists y. split; [right; exact Hy | exact Hn].
    + split; [|reflexivity]. intros _. exists x. split; [left; reflexivity | exact Hx].
Qed.

Lemma np_array_length (l : list elem) (a : list row) :
  np_array coerce shape l = Some a -> length a = length l.
Proof.
  unfold np_array. destruct (same_shape shape l); [|discriminate].
  apply coerce_all_length.
Qed.

Lemma np_array_entries (l : list elem) (a : list row) :
  np_array coerce shape l = Some a ->
  Forall2 (fun x r => coerce x = Some r) l a.
Proof.
  unfold np_array. destruct (same_shape shape l); [|discriminate].
  apply coerce_all_entries.
Qed.

Lemma np_array_fails_iff (l : list elem) :
  np_array coerce shape l = None
  <-> (exists x, In x l /\ coerce x = None) \/ same_shape shape l = false.
Proof.
  unfold np_array. destruct (same_shape shape l).
  - rewrite coerce_all_fails_iff. split; [left; assumption|].
    intros [H|H]; [exact H | discriminate H].
  - split; [right; reflexivity | reflexivity].
Qed.

Lemma np_array_succeeds (l : list elem) :
  (forall x, In x l -> coerce x <> None) -> same_shape shape l = true ->
  exists a, np_array coerce shape l = Some a.
Proof.
  intros Hall Hshape. destruct (np_array coerce shape l) as [a|] eqn:E.
  - exists a. reflexivity.
  - apply np_array_fails_iff in E. destruct E as [(x & Hx & Hn)|E].
    + exfalso. exact (Hall x Hx Hn).
    + congruence.
Qed.

(** *** [load_data] on sequences of unequal length *)

Lemma load_data_unequal (fs ls : list elem) (self : NNData row) :
  length fs <> length ls ->
  load_data coerce shape (Some fs) (Some ls) self
  = Raised DataMismatchError (set_absent self).
Proof.
  intros Hne. unfold load_data.
  destruct (length fs =? length ls) eqn:E.
  - apply Nat.eqb_eq in E. contradiction.
  - reflexivity.
Qed.

(** C4: on two present sequences of unequal outer length [load_data]
    raises [DataMismatchError], and the instance it leaves has neither
    features nor labels. *)
Theorem load_data_mismatch_raises (fs ls : list elem) (self : NNData row) :
  length fs <> length ls ->
  exists s',
    load_data coerce shape (Some fs) (Some ls) self = Raised DataMismatchError s'
    /\ _features s' = None /\ _labels s' = None.
Proof.
  intros Hne. exists (set_absent self).
  rewrite (load_data_unequal fs ls self Hne). repeat split.
Qed.

(** C10: when the lengths differ, an entry that cannot be converted does
    not change the error: [load_data] still raises [DataMismatchError], so
    it does not raise [ValueError]. *)
Theorem load_data_length_check_first (fs ls : list elem) (self : NNData row) :
  length fs <> length ls ->
  (exists x, In x (fs ++ ls) /\ coerce x = None) ->
  (exists s', load_data coerce shape (Some fs) (Some ls) self
              = Raised DataMismatchError s')
  /\ (forall s', load_data coerce shape (Some fs) (Some ls) self
                 <> Raised ValueError s').
Proof.
  intros Hne _. rewrite (load_data_unequal fs ls self Hne). split.
  - eexists. reflexivity.
  - intros s' H. discriminate H.
Qed.

(** C5, as the code has it: on two present sequences of equal outer
    length, [load_data] raises [ValueError] exactly when some entry cannot
    be converted or the entries of one sequence differ in shape (rows of
    different width), and it then leaves neither features nor labels; when
    every entry can be converted and each sequence has one shape, it
    returns, having stored the converted features as features and the
    converted labels as labels, entry by entry and both of the outer
    length of the input, with nothing else changed. *)
Theorem load_data_equal_lengths (fs ls : list elem) (self : NNData row) :
  length fs = length ls ->
  ((exists s', load_data coerce shape (Some fs) (Some ls) self
               = Raised ValueError s')
   <-> ((exists x, In x (fs ++ ls) /\ coerce x = None)
        \/ same_shape shape fs = false \/ same_shape shape ls = false))
  /\ (forall s', load_data coerce shape (Some fs) (Some ls) self
                 = Raised ValueError s'
                 -> _features s' = None /\ _labels s' = None)
  /\ ((forall x, In x (fs ++ ls) -> coerce x <> None) ->
      same_shape shape fs = true -> same_shape shape ls = true ->
      exists fa la,
        load_data coerce shape (Some fs) (Some ls) self
        = Returned (set_labels (Some la) (set_features (Some fa) self))
        /\ Forall2 (fun x r => coerce x = Some r) fs fa
        /\ Forall2 (fun x r => coerce x = Some r) ls la
        /\ length fa = length fs /\ length la = length fs).
Proof.
  intros Hlen. unfold load_data.
  rewrite (proj2 (Nat.eqb_eq _ _) Hlen). simpl negb. cbv iota.
  destruct (np_array coerce shape fs) as [fa|] eqn:Ef.
  - destruct (np_array coerce shape ls) as [la|] eqn:El.
    + split; [split|split].
      * intros (s' & H). discriminate H.
      * intros [(x & Hin & Hn)|[Hs|Hs]]; exfalso.
        -- apply in_app_or in Hin. destruct Hin as [Hin|Hin].
           ++ assert (np_array coerce shape fs = None)
                by (apply np_array_fails_iff; left; exists x; split;
                    assumption).
              congruence.
           ++ assert (np_array coerce shape ls = None)
                by (apply np_array_fails_iff; left; exists x; split;
                    assumption).
              congruence.
        -- assert (np_array coerce shape fs = None)
             by (apply np_array_fails_iff; right; exact Hs).
           congruence.
        -- assert (np_array coerce shape ls = None)
             by (apply np_array_fails_iff; right; exact Hs).
           congruence.
      * intros s' H. discriminate H.
      * intros _ _ _. exists fa, la. split; [reflexivity|].
        split; [apply np_array_entries; exact Ef|].
        split; [apply np_array_entries; exact El|].
        split; [apply np_array_length; exact Ef|].
        rewrite Hlen. apply np_array_length. exact El.
    + assert (Hwhy : (exists x, In x (fs ++ ls) /\ coerce x = None)
                     \/ same_shape shape fs = false
                     \/ same_shape shape ls = false).
      { apply np_array_fails_iff in El.
        destruct El as [(x & Hin & Hn)|Hs]; [left | right; right; exact Hs].
        exists x. split; [apply in_or_app; right; exact Hin | exact Hn]. }
      split; [split|split].
      * intros _. exact Hwhy.
      * intros _. eexists. reflexivity.
      * intros s' H. injection H as <-. split; reflexivity.
      * intros Hall Hsf Hsl. exfalso.
        destruct Hwhy as [(x & Hin & Hn)|[Hs|Hs]];
          [exact (Hall x Hin Hn) | congruence | congruence].
  - assert (Hwhy : (exists x, In x (fs ++ ls) /\ coerce x = None)
                   \/ same_shape shape fs = false
                   \/ same_shape shape ls = false).
    { apply np_array_fails_iff in Ef.
      destruct Ef as [(x & Hin & Hn)|Hs]; [left | right; left; exact Hs].
      exists x. split; [apply in_or_app; left; exact Hin | exact Hn]. }
    split; [split|split].
    + intros _. exact Hwhy.
    + intros _. eexists. reflexivity.
    + intros s' H. injection H as <-. split; reflexivity.
    + intros Hall Hsf Hsl. exfalso.
      destruct Hwhy as [(x & Hin & Hn)|[Hs|Hs]];
        [exact (Hall x Hin Hn) | congruence | congruence].
Qed.

End Loading.

(** ** Lists of indices *)

Lemma py_in_true (r : nat) (l : list nat) : py_in r l = true <-> In r l.
Proof.
  unfold py_in. rewrite existsb_exists. split.
  - intros (x & Hx & E). apply Nat.eqb_eq in E. subst x. exact Hx.
  - intros H. exists r. split; [exact H | apply Nat.eqb_refl].
Qed.

Lemma py_in_false (r : nat) (l : list nat) : py_in r l = false <-> ~ In r l.
Proof.
  rewrite <- py_in_true. destruct (py_in r l); split; congruence.
Qed.

Lemma natorder_leb_le (x y : nat) : NatOrder.leb x y = true <-> x <= y.
Proof.
  revert y. induction x as [|x IH]; intros [|y]; simpl.
  - split; [lia | reflexivity].
  - split; [lia | reflexivity].
  - split; [discriminate | lia].
  - rewrite IH. lia.
Qed.

Lemma py_sort_permutation (l : list nat) : Permutation l (py_sort l).
Proof. apply NatSort.Permuted_sort. Qed.

Lemma py_sort_ascending (l : list nat) : StronglySorted le (py_sort l).
Proof.
  unfold py_sort.
  assert (Htr : Relations_1.Transitive
                  (fun x y : nat => is_true (NatOrder.leb x y))).
  { intros x y z Hxy Hyz. unfold is_true in *.
    rewrite natorder_leb_le in *. lia. }
  pose proof (NatSort.StronglySorted_sort l Htr) as Hs.
  induction Hs as [|a t Hs IH Ha]; constructor.
  - exact IH.
  - eapply Forall_impl; [|exact Ha].
    intros b Hb. apply natorder_leb_le. exact Hb.
Qed.

Lemma ascending_nodup_strict (l : list nat) :
  StronglySorted le l -> NoDup l -> StronglySorted lt l.
Proof.
  induction 1 as [|a t Hs IH Ha]; intros Hnd; constructor.
  - apply IH. inversion Hnd; assumption.
  - inversion Hnd as [|? ? Hnotin Hnd']; subst.
    rewrite Forall_forall in *. intros b Hb.
    specialize (Ha b Hb).
    assert (a <> b) by (intros ->; contradiction). lia.
Qed.

Lemma strict_nodup (l : list nat) : StronglySorted lt l -> NoDup l.
Proof.
  induction 1 as [|a t Hs IH Ha]; constructor.
  - intros Hin. rewrite Forall_forall in Ha. specialize (Ha a Hin). lia.
  - exact IH.
Qed.

Lemma py_sort_strict (l : list nat) : NoDup l -> StronglySorted lt (py_sort l).
Proof.
  intros Hnd. apply ascending_nodup_strict.
  - apply py_sort_ascending.
  - eapply Permutation_NoDup; [apply py_sort_permutation | exact Hnd].
Qed.

Lemma py_sort_in (l : list nat) (i : nat) : In i (py_sort l) <-> In i l.
Proof.
  split; apply Permutation_in;
    [apply Permutation_sym|]; apply py_sort_permutation.
Qed.

Lemma py_sort_length (l : list nat) : length (py_sort l) = length l.
Proof. symmetry. apply Permutation_length, py_sort_permutation. Qed.

(** The test indices collected by the [for] loop are appended to what the
    list held before. *)
Lemma collect_test_filter (available train test : list nat) :
  collect_test available train test
  = test ++ filter (fun i => negb (py_in i train)) available.
Proof.
  unfold collect_test. revert test.
  induction available as [|i t IH]; intros test; simpl.
  - rewrite app_nil_r. reflexivity.
  - rewrite IH. destruct (py_in i train); simpl.
    + reflexivity.
    + rewrite <- app_assoc. reflexivity.
Qed.

Lemma filter_split_length {A : Type} (f : A -> bool) (l : list A) :
  length (filter f l) + length (filter (fun x => negb (f x)) l) = length l.
Proof.
  induction l as [|x t IH]; simpl; [reflexivity|].
  destruct (f x); simpl; lia.
Qed.

(** Among the indices below [n], those outside a duplicate-free list of
    indices below [n] number [n] minus its length. *)
Lemma complement_length (n : nat) (train : list nat) :
  NoDup train -> (forall i, In i train -> i < n) ->
  length (filter (fun i => negb (py_in i train)) (seq 0 n))
  = n - length train.
Proof.
  intros Hnd Hrange.
  pose proof (filter_split_length (fun i => py_in i train) (seq 0 n)) as Hsum.
  rewrite length_seq in Hsum.
  assert (Hperm : Permutation (filter (fun i => py_in i train) (seq 0 n)) train).
  { apply NoDup_Permutation.
    - apply NoDup_filter, seq_NoDup.
    - exact Hnd.
    - intros i. rewrite filter_In, in_seq, py_in_true. split.
      + intros [_ H]. exact H.
      + intros H. split; [|exact H]. specialize (Hrange i H). lia. }
  apply Permutation_length in Hperm. lia.
Qed.

(** ** The sampling loop *)

Section Sampling.

Variable rng : nat -> nat.

Lemma sampling_loop_unfold (fuel : nat) (available : list nat) (number : Z)
  (train : list nat) (k : nat) :
  sampling_loop rng fuel available number train k
  = if (Z.of_nat (length train) <? number)%Z then
      match fuel with
      | 0 => OutOfFuel
      | S fuel' =>
          match available with
          | [] => Raised IndexError (train, k)
          | first :: _ =>
              let r := randint first (last available first) (rng k) in
              if py_in r train
              then sampling_loop rng fuel' available number train (S k)
              else sampling_loop rng fuel' available number (train ++ [r]) (S k)
          end
      end
    else Returned (train, k).
Proof. destruct fuel; reflexivity. Qed.

Lemma range_first_last (n : nat) :
  1 <= n -> seq 0 n = 0 :: seq 1 (n - 1) /\ last (seq 0 n) 0 = n - 1.
Proof.
  intros Hn. destruct n as [|m]; [lia|]. split.
  - simpl. rewrite Nat.sub_0_r. reflexivity.
  - rewrite seq_S, last_last. simpl. lia.
Qed.

Lemma randint_below (n raw : nat) : 1 <= n -> randint 0 (n - 1) raw < n.
Proof.
  intros Hn. unfold randint.
  replace (n - 1 - 0 + 1) with n by lia. simpl.
  apply Nat.mod_upper_bound. lia.
Qed.

(** One turn of the loop over the indices [0 .. n-1]. *)
Lemma sampling_loop_turn (n fuel : nat) (number : Z) (train : list nat)
  (k : nat) :
  1 <= n -> (Z.of_nat (length train) < number)%Z ->
  sampling_loop rng (S fuel) (seq 0 n) number train k
  = if py_in (randint 0 (n - 1) (rng k)) train
    then sampling_loop rng fuel (seq 0 n) number train (S k)
    else sampling_loop rng fuel (seq 0 n) number
                       (train ++ [randint 0 (n - 1) (rng k)]) (S k).
Proof.
  intros Hn Hlt. rewrite sampling_loop_unfold.
  rewrite (proj2 (Z.ltb_lt _ _) Hlt).
  destruct (range_first_last n Hn) as [Hseq Hlast].
  rewrite Hseq at 1. cbv zeta. rewrite Hlast. reflexivity.
Qed.

Lemma sampling_loop_stop (n fuel : nat) (number : Z) (train : list nat)
  (k : nat) :
  (number <= Z.of_nat (length train))%Z ->
  sampling_loop rng fuel (seq 0 n) number train k = Returned (train, k).
Proof.
  intros Hge. rewrite sampling_loop_unfold.
  rewrite (proj2 (Z.ltb_ge _ _) Hge). reflexivity.
Qed.

(** What the loop has done when it returns: it appended new, distinct
    indices of the range until the list reached the target. *)
Lemma sampling_loop_returned (n : nat) (number : Z) :
  forall fuel train k train' k',
    sampling_loop rng fuel (seq 0 n) number train k = Returned (train', k') ->
    exists extra,
      train' = train ++ extra
      /\ NoDup extra
      /\ (forall i, In i extra -> ~ In i train /\ i < n)
      /\ k <= k'
      /\ ((number <= Z.of_nat (length train))%Z -> extra = [] /\ k' = k)
      /\ ((Z.of_nat (length train) < number)%Z ->
          Z.of_nat (length train') = number).
Proof.
  induction fuel as [|fuel IH]; intros train k train' k' Hrun.
  - rewrite sampling_loop_unfold in Hrun.
    destruct (Z.ltb_spec (Z.of_nat (length train)) number) as [Hlt|Hge];
      [discriminate|].
    injection Hrun as <- <-. exists []. rewrite app_nil_r.
    repeat split; try constructor; try lia; contradiction.
  - destruct (Z.ltb_spec (Z.of_nat (length train)) number) as [Hlt|Hge].
    + destruct n as [|m].
      { rewrite sampling_loop_unfold in Hrun.
        rewrite (proj2 (Z.ltb_lt _ _) Hlt) in Hrun. discriminate. }
      assert (Hn : 1 <= S m) by lia.
      rewrite (sampling_loop_turn (S m) fuel number train k Hn Hlt) in Hrun.
      set (r := randint 0 (S m - 1) (rng k)) in *.
      destruct (py_in r train) eqn:Hin.
      * destruct (IH _ _ _ _ Hrun) as (extra & E & Hnd & Hnew & Hk & Hfull & Hlen).
        exists extra.
        split; [exact E|]. split; [exact Hnd|]. split; [exact Hnew|].
        split; [lia|]. split; [lia | exact Hlen].
      * apply py_in_false in Hin.
        destruct (IH _ _ _ _ Hrun) as (extra & E & Hnd & Hnew & Hk & Hfull & Hlen).
        exists (r :: extra). rewrite <- app_assoc in E.
        split; [exact E|]. split; [|split; [|split; [lia|split; [lia|]]]].
        -- constructor; [|exact Hnd]. intros Hr.
           apply (proj1 (Hnew r Hr)). apply in_or_app. right. left. reflexivity.
        -- intros i [<-|Hi].
           ++ split; [exact Hin | apply randint_below; exact Hn].
           ++ destruct (Hnew i Hi) as [Hni Hlt']. split; [|exact Hlt'].
              intros Hi'. apply Hni. apply in_or_app. left. exact Hi'.
        -- intros _. rewrite length_app in Hfull, Hlen. simpl in Hfull, Hlen.
           destruct (Z.ltb_spec (Z.of_nat (length train + 1)) number) as [Hlt'|Hge'].
           ++ apply Hlen. exact Hlt'.
           ++ destruct (Hfull Hge') as [-> _]. subst train'.
              rewrite length_app. simpl. lia.
    + rewrite (sampling_loop_stop n (S fuel) number train k Hge) in Hrun.
      injection Hrun as <- <-. exists []. rewrite app_nil_r.
      repeat split; try constructor; try lia; contradiction.
Qed.

(** The loop raises only on an empty range with a positive target. *)
Lemma sampling_loop_raised (n : nat) (number : Z) :
  forall fuel train k e s,
    sampling_loop rng fuel (seq 0 n) number train k = Raised e s ->
    n = 0 /\ (0 < number)%Z.
Proof.
  induction fuel as [|fuel IH]; intros train k e s Hrun.
  - rewrite sampling_loop_unfold in Hrun.
    destruct (Z.of_nat (length train) <? number)%Z; discriminate.
  - destruct (Z.ltb_spec (Z.of_nat (length train)) number) as [Hlt|Hge].
    + destruct n as [|m]; [split; [reflexivity | lia]|].
      assert (Hn : 1 <= S m) by lia.
      rewrite (sampling_loop_turn (S m) fuel number train k Hn Hlt) in Hrun.
      destruct (py_in _ train); apply (IH _ _ _ _ Hrun).
    + rewrite (sampling_loop_stop n (S fuel) number train k Hge) in Hrun.
      discriminate.
Qed.

End Sampling.

(** ** Termination of the sampling loop *)

Section Termination.

Variable rng : nat -> nat.

(** There is no bound on the number of draws that works for every
    generator: on the generator stuck at zero the loop that has to pick
    two indices out of two is still running whatever the fuel. *)
Lemma stuck_loop_runs_out (fuel k : nat) :
  sampling_loop stuck_rng fuel (seq 0 2) 2 [0] k = OutOfFuel.
Proof.
  revert k. induction fuel as [|fuel IH]; intros k; [reflexivity|].
  rewrite sampling_loop_turn by (simpl; lia). cbn. apply IH.
Qed.

Lemma stuck_loop_from_empty (fuel k : nat) :
  sampling_loop stuck_rng fuel (seq 0 2) 2 [] k = OutOfFuel.
Proof.
  destruct fuel as [|fuel]; [reflexivity|].
  rewrite sampling_loop_turn by (simpl; lia). cbn.
  apply stuck_loop_runs_out.
Qed.

(** Finitely many indices are all served before some position. *)
Lemma serves_bound (n k : nat) :
  serves rng n k ->
  exists bound,
    k <= bound
    /\ forall i, i < n ->
         exists j, k <= j < bound /\ randint 0 (n - 1) (rng j) = i.
Proof.
  intros Hserves.
  assert (Hm : forall m, m <= n ->
            exists bound, k <= bound /\
              forall i, i < m ->
                exists j, k <= j < bound /\ randint 0 (n - 1) (rng j) = i).
  { induction m as [|m IH]; intros Hle.
    - exists k. split; [lia|]. intros i Hi. lia.
    - destruct IH as (b & Hb & Hcov); [lia|].
      destruct (Hserves m) as (j & Hj & Ej); [lia|].
      exists (Nat.max b (S j)). split; [lia|].
      intros i Hi. destruct (Nat.eq_dec i m) as [->|Hne].
      + exists j. split; [lia | exact Ej].
      + destruct (Hcov i) as (j' & Hj' & Ej'); [lia|].
        exists j'. split; [lia | exact Ej']. }
  apply (Hm n). lia.
Qed.

(** Once every index of the range has been drawn, the list holds them
    all, so the loop stops at the latest then. *)
Lemma sampling_loop_finishes (n k0 bound : nat) (number : Z) :
  1 <= n -> (number <= Z.of_nat n)%Z ->
  (forall i, i < n ->
     exists j, k0 <= j < bound /\ randint 0 (n - 1) (rng j) = i) ->
  forall d train k,
    k0 <= k -> bound <= k + d ->
    (forall j, k0 <= j < k -> In (randint 0 (n - 1) (rng j)) train) ->
    forall fuel, d <= fuel ->
      exists r, sampling_loop rng fuel (seq 0 n) number train k = Returned r.
Proof.
  intros Hn Hnum Hcov.
  assert (Hfull : forall train k,
             bound <= k ->
             (forall j, k0 <= j < k -> In (randint 0 (n - 1) (rng j)) train) ->
             (number <= Z.of_nat (length train))%Z).
  { intros train k Hk Hinv.
    assert (Hincl : incl (seq 0 n) train).
    { intros i Hi. apply in_seq in Hi.
      destruct (Hcov i) as (j & Hj & <-); [lia|].
      apply Hinv. lia. }
    pose proof (NoDup_incl_length (seq_NoDup n 0) Hincl) as Hlen.
    rewrite length_seq in Hlen. lia. }
  induction d as [|d IH]; intros train k Hk Hb Hinv fuel Hfuel.
  - eexists. apply sampling_loop_stop. apply (Hfull train k); [lia | exact Hinv].
  - destruct (Z.ltb_spec (Z.of_nat (length train)) number) as [Hlt|Hge].
    + destruct fuel as [|fuel]; [lia|].
      rewrite (sampling_loop_turn rng n fuel number train k Hn Hlt).
      destruct (py_in (randint 0 (n - 1) (rng k)) train) eqn:Hin.
      * apply py_in_true in Hin. apply IH; try lia.
        intros j Hj. destruct (Nat.eq_dec j k) as [->|Hne];
          [exact Hin | apply Hinv; lia].
      * apply IH; try lia.
        intros j Hj. apply in_or_app.
        destruct (Nat.eq_dec j k) as [->|Hne];
          [right; left; reflexivity | left; apply Hinv; lia].
    + eexists. apply sampling_loop_stop. exact Hge.
Qed.

End Termination.

(** C8, as the code has it: started on an empty list with a target of at
    most [n] on a range of [n >= 1] indices, the loop finishes for every
    generator that serves the range, for all fuel above some amount, and
    it then holds exactly the target number of distinct indices of the
    range. *)
Theorem sampling_loop_terminates_when_served
  (rng : nat -> nat) (n target k : nat) :
  1 <= n -> target <= n -> serves rng n k ->
  exists fuel,
    forall fuel', fuel <= fuel' ->
      exists train k',
        sampling_loop rng fuel' (seq 0 n) (Z.of_nat target) [] k
        = Returned (train, k')
        /\ length train = target
        /\ NoDup train
        /\ (forall i, In i train -> i < n).
Proof.
  intros Hn Htarget Hserves.
  destruct (serves_bound rng n k Hserves) as (bound & Hb & Hcov).
  exists (bound - k). intros fuel' Hfuel.
  destruct (sampling_loop_finishes rng n k bound (Z.of_nat target) Hn
              ltac:(lia) Hcov (bound - k) [] k ltac:(lia) ltac:(lia)
              ltac:(intros j Hj; lia) fuel' Hfuel) as ([train k'] & Hrun).
  exists train, k'. split; [exact Hrun|].
  destruct (sampling_loop_returned rng n (Z.of_nat target) _ _ _ _ _ Hrun)
    as (extra & E & Hnd & Hnew & _ & Hfull & Hlen).
  simpl in E. subst extra. simpl in Hfull, Hlen.
  split; [|split; [exact Hnd | intros i Hi; apply (Hnew i Hi)]].
  destruct target as [|t].
  - destruct Hfull as [-> _]; [lia | reflexivity].
  - specialize (Hlen ltac:(lia)). lia.
Qed.

Lemma sampling_loop_terminates_when_served_witness :
  exists fuel,
    forall fuel', fuel <= fuel' ->
      exists train k',
        sampling_loop counting_rng fuel' (seq 0 3) (Z.of_nat 3) [] 0
        = Returned (train, k')
        /\ length train = 3
        /\ NoDup train
        /\ (forall i, In i train -> i < 3).
Proof.
  apply (sampling_loop_terminates_when_served counting_rng 3 3 0).
  - lia.
  - lia.
  - intros i Hi. exists i. split; [lia|].
    destruct i as [|[|[|i]]]; [reflexivity | reflexivity | reflexivity | lia].
Defined.

(** C8, as the claim has it, fails: with two indices to pick out of two
    and a generator stuck at zero, no amount of fuel lets the loop
    return. *)
Lemma sampling_loop_may_not_terminate :
  ~ exists fuel r,
      sampling_loop stuck_rng fuel (seq 0 2) (Z.of_nat 2) [] 0 = Returned r.
Proof.
  intros (fuel & r & H).
  change (Z.of_nat 2) with 2%Z in H.
  rewrite stuck_loop_from_empty in H. discriminate H.
Qed.

(** ** Rounding *)

Lemma round_half_even_nonneg (x : Q) :
  (0 <= x)%Q -> (0 <= round_half_even x)%Z.
Proof.
  intros Hx. unfold round_half_even.
  assert (Hf : (0 <= Qfloor x)%Z)
    by (change 0%Z with (Qfloor 0); apply Qfloor_resp_le; exact Hx).
  destruct (x - inject_Z (Qfloor x) ?= 1 # 2)%Q; [|lia|lia].
  destruct (Z.even (Qfloor x)); lia.
Qed.

Lemma round_half_even_le (x : Q) (z : Z) :
  (x <= inject_Z z)%Q -> (round_half_even x <= z)%Z.
Proof.
  intros Hx. unfold round_half_even.
  assert (Hf : (Qfloor x <= z)%Z)
    by (rewrite <- (Qfloor_Z z); apply Qfloor_resp_le; exact Hx).
  destruct (Z.eq_dec (Qfloor x) z) as [E|Hne].
  - assert (Hlt : (x - inject_Z (Qfloor x) < 1 # 2)%Q).
    { rewrite E. apply Qle_lt_trans with 0%Q; [|reflexivity].
      apply (Qplus_le_l _ _ (inject_Z z)). ring_simplify. exact Hx. }
    rewrite (proj1 (Qlt_alt _ _) Hlt). lia.
  - destruct (x - inject_Z (Qfloor x) ?= 1 # 2)%Q; [|lia|lia].
    destruct (Z.even (Qfloor x)); lia.
Qed.

Lemma round_half_even_integer (x : Q) (z : Z) :
  (x == inject_Z z)%Q -> round_half_even x = z.
Proof.
  intros Hx. unfold round_half_even.
  assert (Hf : Qfloor x = z) by (rewrite Hx; apply Qfloor_Z).
  rewrite Hf.
  assert (Hlt : (x - inject_Z z < 1 # 2)%Q)
    by (rewrite Hx; ring_simplify; reflexivity).
  rewrite (proj1 (Qlt_alt _ _) Hlt). reflexivity.
Qed.

Lemma round_magnitude_nonneg (x : Q) :
  (0 <= x)%Q -> (0 <= round_magnitude x)%Q.
Proof.
  intros Hx. unfold round_magnitude.
  destruct (Qle_bool (inject_Z (2 ^ 53)) x); [exact Hx|].
  cbv zeta. unfold Qle. simpl.
  rewrite Z.mul_1_r. apply round_half_even_nonneg.
  apply Qmult_le_0_compat; [exact Hx | discriminate].
Qed.

Lemma round_magnitude_le (x : Q) (z : Z) :
  (0 <= x)%Q -> (x <= inject_Z z)%Q -> (round_magnitude x <= inject_Z z)%Q.
Proof.
  intros H0 Hx. unfold round_magnitude.
  destruct (Qle_bool (inject_Z (2 ^ 53)) x); [exact Hx|].
  cbv zeta. set (k := fraction_bits x). unfold Qle. simpl.
  rewrite Z.mul_1_r. apply round_half_even_le.
  rewrite inject_Z_mult. apply Qmult_le_compat_r; [exact Hx | discriminate].
Qed.

Lemma round_magnitude_integer (x : Q) (z : Z) :
  (x == inject_Z z)%Q -> (round_magnitude x == inject_Z z)%Q.
Proof.
  intros Hx. unfold round_magnitude.
  destruct (Qle_bool (inject_Z (2 ^ 53)) x); [exact Hx|].
  cbv zeta. set (k := fraction_bits x).
  rewrite (round_half_even_integer _ (z * Zpos (two_power k))).
  - unfold Qeq. simpl. ring.
  - rewrite Hx, inject_Z_mult. reflexivity.
Qed.

Lemma round_double_nonneg (x : Q) : (0 <= x)%Q -> (0 <= round_double x)%Q.
Proof.
  intros Hx. unfold round_double.
  rewrite (proj2 (Qle_bool_iff 0 x) Hx). apply round_magnitude_nonneg, Hx.
Qed.

Lemma round_double_le (x : Q) (z : Z) :
  (0 <= z)%Z -> (x <= inject_Z z)%Q -> (round_double x <= inject_Z z)%Q.
Proof.
  intros Hz Hx. unfold round_double.
  destruct (Qle_bool 0 x) eqn:E.
  - apply Qle_bool_iff in E. apply round_magnitude_le; assumption.
  - assert (Hneg : (0 <= - x)%Q).
    { destruct (Qlt_le_dec x 0) as [H|H].
      - apply (Qopp_le_compat x 0), Qlt_le_weak, H.
      - apply Qle_bool_iff in H. congruence. }
    apply Qle_trans with 0%Q.
    + apply (Qopp_le_compat 0 (round_magnitude (- x))).
      apply round_magnitude_nonneg, Hneg.
    + change 0%Q with (inject_Z 0). rewrite <- Zle_Qle. exact Hz.
Qed.

Lemma round_double_integer (x : Q) (z : Z) :
  (0 <= z)%Z -> (x == inject_Z z)%Q -> (round_double x == inject_Z z)%Q.
Proof.
  intros Hz Hx. unfold round_double.
  assert (H0 : Qle_bool 0 x = true).
  { apply Qle_bool_iff. rewrite Hx.
    change 0%Q with (inject_Z 0). rewrite <- Zle_Qle. exact Hz. }
  rewrite H0. apply round_magnitude_integer, Hx.
Qed.

(** *** The rounding is that of the doubles *)

Section NearestDouble.

Local Open Scope Q_scope.

Lemma two_power_pow (k : N) : Zpos (two_power k) = (2 ^ Z.of_N k)%Z.
Proof.
  unfold two_power. destruct k as [|p]; [reflexivity|].
  simpl. unfold Z.pow_pos.
  apply (Pos.iter_swap_gen _ _ Zpos xO (Z.mul 2)). reflexivity.
Qed.

Lemma Qpower_two_diff (n m : Z) :
  (0 <= n)%Z -> (0 <= m)%Z ->
  Qpower 2 (n - m) == inject_Z (2 ^ n) / inject_Z (2 ^ m).
Proof.
  intros Hn Hm. unfold Z.sub. rewrite Qpower_plus by discriminate.
  rewrite Qpower_opp. rewrite !Zpower_Qpower by assumption. reflexivity.
Qed.

Lemma ilog2_spec (x : Q) :
  0 < x -> Qpower 2 (ilog2 x) <= x /\ x < Qpower 2 (ilog2 x + 1).
Proof.
  intros Hx. destruct x as [a b].
  assert (Ha : (0 < a)%Z) by (unfold Qlt in Hx; simpl in Hx; lia).
  pose proof (Z.log2_spec a Ha) as [Hal Hau].
  pose proof (Z.log2_spec (Zpos b) (Pos2Z.is_pos b)) as [Hbl Hbu].
  pose proof (Z.log2_nonneg a) as Hla.
  pose proof (Z.log2_nonneg (Zpos b)) as Hlb.
  set (la := Z.log2 a) in *. set (lb := Z.log2 (Zpos b)) in *.
  assert (Hpa : (0 < 2 ^ la)%Z) by (apply Z.pow_pos_nonneg; lia).
  assert (Hpb : (0 < 2 ^ lb)%Z) by (apply Z.pow_pos_nonneg; lia).
  assert (Hup : a # b < Qpower 2 (la - lb + 1)).
  { replace (la - lb + 1)%Z with (Z.succ la - lb)%Z by lia.
    rewrite Qpower_two_diff by lia.
    apply Qlt_shift_div_l.
    - change 0 with (inject_Z 0). rewrite <- Zlt_Qlt. exact Hpb.
    - unfold Qlt. simpl. nia. }
  assert (Hlow : Qpower 2 (la - lb - 1) <= a # b).
  { replace (la - lb - 1)%Z with (la - Z.succ lb)%Z by lia.
    rewrite Qpower_two_diff by lia.
    apply Qle_shift_div_r.
    - change 0 with (inject_Z 0). rewrite <- Zlt_Qlt.
      apply Z.pow_pos_nonneg; lia.
    - unfold Qle. simpl. nia. }
  unfold ilog2. simpl Qnum. simpl Qden. fold la lb.
  destruct (Qle_bool (Qpower 2 (la - lb)) (a # b)) eqn:E.
  - apply Qle_bool_iff in E. split; [exact E | exact Hup].
  - split; [exact Hlow|].
    replace (la - lb - 1 + 1)%Z with (la - lb)%Z by lia.
    apply Qnot_le_lt. intros H. apply Qle_bool_iff in H. congruence.
Qed.

Lemma round_half_even_ge (x : Q) (z : Z) :
  inject_Z z <= x -> (z <= round_half_even x)%Z.
Proof.
  intros Hx. unfold round_half_even.
  assert (Hf : (z <= Qfloor x)%Z)
    by (rewrite <- (Qfloor_Z z); apply Qfloor_resp_le; exact Hx).
  destruct (x - inject_Z (Qfloor x) ?= 1 # 2); [|lia|lia].
  destruct (Z.even (Qfloor x)); lia.
Qed.

Lemma round_half_even_near (x : Q) :
  Qabs (inject_Z (round_half_even x) - x) <= 1 # 2
  /\ (Qabs (inject_Z (round_half_even x) - x) == 1 # 2 ->
      Z.even (round_half_even x) = true).
Proof.
  unfold round_half_even.
  pose proof (Qfloor_le x) as Hlo. pose proof (Qlt_floor x) as Hhi.
  rewrite inject_Z_plus in Hhi. change (inject_Z 1) with 1 in Hhi.
  set (f := Qfloor x) in *.
  destruct (x - inject_Z f ?= 1 # 2) eqn:E.
  - apply Qeq_alt in E.
    destruct (Z.even f) eqn:Ev.
    + split; [|intros _; exact Ev].
      apply Qabs_Qle_condition. split; lra.
    + split.
      * apply Qabs_Qle_condition. rewrite inject_Z_plus.
        change (inject_Z 1) with 1. split; lra.
      * intros _. rewrite Z.even_add, Ev. reflexivity.
  - apply Qlt_alt in E.
    assert (Hd : Qabs (inject_Z f - x) < 1 # 2)
      by (apply Qabs_Qlt_condition; split; lra).
    split; [apply Qlt_le_weak, Hd|].
    intros Heq. rewrite Heq in Hd. discriminate Hd.
  - apply Qgt_alt in E.
    assert (Hd : Qabs (inject_Z (f + 1) - x) < 1 # 2).
    { rewrite inject_Z_plus. change (inject_Z 1) with 1.
      apply Qabs_Qlt_condition. split; lra. }
    split; [apply Qlt_le_weak, Hd|].
    intros Heq. rewrite Heq in Hd. discriminate Hd.
Qed.

(** In the range of the normal doubles below [2^53], [round_magnitude]
    gives a number with a significand of 53 bits and an exponent of a
    double, at most half a unit in the last place away, and with an even
    significand when it is exactly half a unit away: the double nearest to
    [x], ties to even. *)
Theorem round_magnitude_nearest (x : Q) :
  Qpower 2 (-1022) <= x -> x < inject_Z (2 ^ 53) ->
  exists m e,
    round_magnitude x == inject_Z m * Qpower 2 e
    /\ (2 ^ 52 <= m <= 2 ^ 53)%Z
    /\ (-1074 <= e <= 0)%Z
    /\ Qabs (round_magnitude x - x) <= Qpower 2 (e - 1)
    /\ (Qabs (round_magnitude x - x) == Qpower 2 (e - 1) ->
        Z.even m = true).
Proof.
  intros Hlow Hhigh.
  assert (H2 : 1 < 2) by reflexivity.
  assert (Hx : 0 < x)
    by (apply Qlt_le_trans with (Qpower 2 (-1022));
        [apply Qpower_0_lt; reflexivity | exact Hlow]).
  destruct (ilog2_spec x Hx) as [Hl Hu].
  set (L := ilog2 x) in *.
  assert (HL1 : (-1022 <= L)%Z).
  { assert (H : (-1022 < L + 1)%Z); [|lia].
    apply (Qpower_lt_compat_l_inv 2); [|exact H2].
    apply Qle_lt_trans with x; assumption. }
  assert (HL2 : (L <= 52)%Z).
  { assert (H : (L < 53)%Z); [|lia].
    apply (Qpower_lt_compat_l_inv 2); [|exact H2].
    apply Qle_lt_trans with x; [exact Hl|].
    change (Qpower 2 53) with (Qpower (inject_Z 2) 53).
    rewrite <- Zpower_Qpower by lia. exact Hhigh. }
  set (k := (52 - L)%Z).
  assert (Hk : fraction_bits x = Z.to_N k).
  { unfold fraction_bits. fold L. f_equal. unfold k. lia. }
  unfold round_magnitude.
  assert (Hnot : Qle_bool (inject_Z (2 ^ 53)) x = false).
  { destruct (Qle_bool (inject_Z (2 ^ 53)) x) eqn:E; [|reflexivity].
    apply Qle_bool_iff in E. exfalso. exact (Qlt_not_le _ _ Hhigh E). }
  rewrite Hnot. cbv zeta. rewrite Hk.
  set (P := inject_Z (Zpos (two_power (Z.to_N k)))).
  assert (HP : P == Qpower 2 k).
  { unfold P. rewrite two_power_pow, Z2N.id by (unfold k; lia).
    apply Zpower_Qpower. unfold k. lia. }
  assert (HP0 : 0 < P) by (rewrite HP; apply Qpower_0_lt; reflexivity).
  assert (HPn : ~ P == 0) by (intros E; rewrite E in HP0; discriminate HP0).
  set (s := x * P).
  assert (Hs1 : inject_Z (2 ^ 52) <= s).
  { rewrite Zpower_Qpower by lia. change (inject_Z 2) with 2.
    replace 52%Z with (L + k)%Z by (unfold k; lia).
    rewrite Qpower_plus by discriminate. rewrite <- HP.
    unfold s. apply Qmult_le_compat_r; [exact Hl | apply Qlt_le_weak, HP0]. }
  assert (Hs2 : s <= inject_Z (2 ^ 53)).
  { rewrite Zpower_Qpower by lia. change (inject_Z 2) with 2.
    replace 53%Z with (L + 1 + k)%Z by (unfold k; lia).
    rewrite Qpower_plus by discriminate. rewrite <- HP.
    unfold s. apply Qmult_le_compat_r;
      [apply Qlt_le_weak, Hu | apply Qlt_le_weak, HP0]. }
  set (m := round_half_even s).
  assert (Hr : m # two_power (Z.to_N k) == inject_Z m / P)
    by apply Qmake_Qdiv.
  assert (Hdiff : (m # two_power (Z.to_N k)) - x == (inject_Z m - s) * / P)
    by (rewrite Hr; unfold s; field; exact HPn).
  assert (Hulp : Qpower 2 (- k - 1) == (1 # 2) * / P).
  { replace (- k - 1)%Z with (- k + - 1)%Z by lia.
    rewrite Qpower_plus by discriminate. rewrite Qpower_opp, <- HP.
    change (Qpower 2 (-1)) with (1 # 2). apply Qmult_comm. }
  assert (Habs : Qabs ((m # two_power (Z.to_N k)) - x)
                 == Qabs (inject_Z m - s) * / P).
  { rewrite Hdiff, Qabs_Qmult. rewrite (Qabs_pos (/ P)); [reflexivity|].
    apply Qlt_le_weak, Qinv_lt_0_compat, HP0. }
  destruct (round_half_even_near s) as [Hnear Htie]. fold m in Hnear, Htie.
  exists m, (- k)%Z. split; [|split; [|split; [|split]]].
  - rewrite Hr, Qpower_opp, <- HP. reflexivity.
  - split; [apply round_half_even_ge, Hs1 | apply round_half_even_le, Hs2].
  - unfold k. lia.
  - rewrite Habs, Hulp. apply Qmult_le_compat_r; [exact Hnear|].
    apply Qlt_le_weak, Qinv_lt_0_compat, HP0.
  - rewrite Habs, Hulp. intros E. apply Htie.
    apply (Qmult_inj_r _ _ (/ P)); [|exact E].
    intros E0. apply HPn. rewrite <- (Qinv_involutive P), E0. reflexivity.
Qed.

End NearestDouble.

(** Products whose double is known: [.57 * 100] is below 57,
    [4.35 * 100] below 435, [.1 * 3] above [.3]. *)
Example known_products :
  Qfloor (round_double (py_float (57 # 100) * 100)) = 56%Z
  /\ Qfloor (round_double (py_float (435 # 100) * 100)) = 434%Z
  /\ (round_double (py_float (1 # 10) * 3)
      == 5404319552844596 # 18014398509481984)%Q
  /\ (py_float (3 # 10) == 5404319552844595 # 18014398509481984)%Q.
Proof. repeat split; vm_compute; reflexivity. Qed.

(** The two products at which the count and the exact floor differ:
    fifty rows at [.58], and three rows at the double below one third. *)
Example fifty_rows_at_58_hundredths :
  number_of_training_examples 50 (py_float (58 # 100)) = 28%Z
  /\ Qfloor (inject_Z 50 * (58 # 100)) = 29%Z.
Proof. split; vm_compute; reflexivity. Qed.

Example three_rows_at_a_third :
  py_float (1 # 3) = (6004799503160661 # 18014398509481984)%Q
  /\ number_of_training_examples 3 (py_float (1 # 3)) = 1%Z
  /\ Qfloor (inject_Z 3 * py_float (1 # 3)) = 0%Z.
Proof. repeat split; vm_compute; reflexivity. Qed.

Example literals_are_doubles :
  (py_float (1 # 10) == 3602879701896397 # 36028797018963968)%Q
  /\ (py_float (9 # 10) == 8106479329266893 # 9007199254740992)%Q
  /\ (py_float (3 # 10) == 5404319552844595 # 18014398509481984)%Q
  /\ (py_float (5 # 10) == 1 # 2)%Q.
Proof. repeat split; vm_compute; reflexivity. Qed.

(** ** The target count *)

Lemma number_of_training_examples_zero (train_factor : Q) :
  number_of_training_examples 0 train_factor = 0%Z.
Proof.
  unfold number_of_training_examples.
  rewrite (round_double_integer _ 0); [reflexivity | lia|].
  simpl Z.of_nat. apply Qmult_0_l.
Qed.

Lemma number_of_training_examples_nonneg (size : nat) (train_factor : Q) :
  (0 <= train_factor)%Q ->
  (0 <= number_of_training_examples size train_factor)%Z.
Proof.
  intros H0. unfold number_of_training_examples.
  change 0%Z with (Qfloor 0). apply Qfloor_resp_le.
  apply round_double_nonneg.
  apply Qmult_le_0_compat; [|exact H0].
  change 0%Q with (inject_Z 0). rewrite <- Zle_Qle. lia.
Qed.

Lemma number_of_training_examples_le (size : nat) (train_factor : Q) :
  (train_factor <= 1)%Q ->
  (number_of_training_examples size train_factor <= Z.of_nat size)%Z.
Proof.
  intros H1. unfold number_of_training_examples.
  rewrite <- (Qfloor_Z (Z.of_nat size)) at 2. apply Qfloor_resp_le.
  apply round_double_le; [lia|].
  apply Qle_trans with (1 * inject_Z (Z.of_nat size))%Q.
  - rewrite Qmult_comm. apply Qmult_le_compat_r; [exact H1|].
    change 0%Q with (inject_Z 0). rewrite <- Zle_Qle. lia.
  - rewrite Qmult_1_l. apply Qle_refl.
Qed.

(** ** [split_set] *)

Section Splitting.

Variable row : Type.
Variable rng : nat -> nat.

(** What a returning call on present features leaves: the old training
    indices followed by the newly drawn ones, and the old test indices
    followed by the indices that are not training indices, each list
    sorted. *)
Lemma split_set_returned (fuel : nat) (new_train_factor : option Q)
  (self : NNData row) (k : nat) (s' : NNData row) (k' : nat)
  (fs : list row) :
  _features self = Some fs ->
  split_set rng fuel new_train_factor self k = Returned (s', k') ->
  exists extra,
    s' = mkNNData (Some fs) (_labels self)
           (factor_in_use new_train_factor self)
           (py_sort (_train_indices self ++ extra))
           (py_sort (_test_indices self
                     ++ filter (fun i => negb (py_in i (_train_indices self ++ extra)))
                          (seq 0 (length fs))))
           (_train_pool self) (_test_pool self)
    /\ NoDup extra
    /\ (forall i, In i extra ->
          ~ In i (_train_indices self) /\ i < length fs)
    /\ k <= k'
    /\ ((number_of_training_examples (length fs)
           (factor_in_use new_train_factor self)
         <= Z.of_nat (length (_train_indices self)))%Z ->
        extra = [] /\ k' = k)
    /\ ((Z.of_nat (length (_train_indices self))
         < number_of_training_examples (length fs)
             (factor_in_use new_train_factor self))%Z ->
        Z.of_nat (length (_train_indices self ++ extra))
        = number_of_training_examples (length fs)
            (factor_in_use new_train_factor self)).
Proof.
  intros Hfs Hrun. unfold split_set in Hrun. rewrite Hfs in Hrun.
  set (self1 := match new_train_factor with
                | Some f => set_train_factor (percentage_limiter f) self
                | None => self
                end) in *.
  assert (Htf : _train_factor self1 = factor_in_use new_train_factor self)
    by (destruct new_train_factor; reflexivity).
  assert (Htr : _train_indices self1 = _train_indices self)
    by (destruct new_train_factor; reflexivity).
  assert (Hte : _test_indices self1 = _test_indices self)
    by (destruct new_train_factor; reflexivity).
  assert (Hfe : _features self1 = Some fs)
    by (destruct new_train_factor; simpl; exact Hfs).
  assert (Hla : _labels self1 = _labels self)
    by (destruct new_train_factor; reflexivity).
  assert (Hp1 : _train_pool self1 = _train_pool self)
    by (destruct new_train_factor; reflexivity).
  assert (Hp2 : _test_pool self1 = _test_pool self)
    by (destruct new_train_factor; reflexivity).
  cbv zeta in Hrun. rewrite Htf, Htr in Hrun.
  destruct (sampling_loop rng fuel (seq 0 (length fs)) _ _ k)
    as [[train k1]|e [train k1]|] eqn:Hloop; try discriminate.
  injection Hrun as <- <-.
  destruct (sampling_loop_returned rng _ _ _ _ _ _ _ Hloop)
    as (extra & E & Hnd & Hnew & Hk & Hfull & Hlen).
  exists extra. subst train.
  split; [|split; [exact Hnd|split; [exact Hnew|split; [exact Hk|]]]].
  - unfold set_test_indices, set_train_indices. simpl.
    rewrite collect_test_filter, Hfe, Hla, Htf, Hte, Hp1, Hp2. reflexivity.
  - split; [exact Hfull | exact Hlen].
Qed.

(** [split_set] never raises: the only statement that could, the read of
    [available_indices[0]], runs on an empty range only if the target is
    positive, and the target on an empty range is zero. *)
Lemma split_set_never_raises (fuel : nat) (new_train_factor : option Q)
  (self : NNData row) (k : nat) (e : exn) (s : NNData row * nat) :
  split_set rng fuel new_train_factor self k <> Raised e s.
Proof.
  unfold split_set. destruct (_features self) as [fs|]; [|discriminate].
  cbv zeta.
  destruct (sampling_loop rng fuel (seq 0 (length fs)) _ _ k)
    as [[train k1]|e' [train k1]|] eqn:Hloop; try discriminate.
  destruct (sampling_loop_raised rng _ _ _ _ _ _ _ Hloop) as [Hn Hpos].
  rewrite Hn, number_of_training_examples_zero in Hpos. lia.
Qed.

(** On absent features the call returns at once with both lists empty. *)
Lemma split_set_absent (fuel : nat) (new_train_factor : option Q)
  (self : NNData row) (k : nat) :
  _features self = None ->
  split_set rng fuel new_train_factor self k
  = Returned (set_test_indices [] (set_train_indices [] self), k).
Proof. intros H. unfold split_set. rewrite H. reflexivity. Qed.

(** On present features without rows the loops have nothing to do; the
    call returns and sorts what the lists held. *)
Lemma split_set_no_rows (fuel : nat) (new_train_factor : option Q)
  (self : NNData row) (k : nat) :
  _features self = Some [] ->
  split_set rng fuel new_train_factor self k
  = Returned
      (mkNNData (Some []) (_labels self)
         (factor_in_use new_train_factor self)
         (py_sort (_train_indices self)) (py_sort (_test_indices self))
         (_train_pool self) (_test_pool self), k).
Proof.
  intros H. unfold split_set. rewrite H. cbv zeta. simpl length.
  rewrite number_of_training_examples_zero.
  rewrite sampling_loop_stop by lia.
  destruct new_train_factor; simpl;
    unfold set_test_indices, set_train_indices, set_train_factor; simpl;
    rewrite H; reflexivity.
Qed.

End Splitting.

Section Partition.

Variable row : Type.
Variable rng : nat -> nat.

Lemma complement_ext (t1 t2 l : list nat) :
  (forall i, In i t1 <-> In i t2) ->
  filter (fun i => negb (py_in i t1)) l = filter (fun i => negb (py_in i t2)) l.
Proof.
  intros Hiff. apply filter_ext. intros i. f_equal.
  destruct (py_in i t1) eqn:E1, (py_in i t2) eqn:E2; try reflexivity.
  - apply py_in_true in E1. apply py_in_false in E2. apply Hiff in E1. contradiction.
  - apply py_in_true in E2. apply py_in_false in E1. apply Hiff in E2. contradiction.
Qed.

(** A returning call on present features keeps what the two lists held:
    the training list only grows, up to the target if it was shorter, and
    the test list receives the complement of the training list on top of
    its old content. *)
Lemma split_set_accumulates (fuel : nat) (new_train_factor : option Q)
  (self : NNData row) (k : nat) (s' : NNData row) (k' : nat)
  (fs : list row) :
  _features self = Some fs ->
  NoDup (_train_indices self) ->
  (forall i, In i (_train_indices self) -> i < length fs) ->
  split_set rng fuel new_train_factor self k = Returned (s', k') ->
  _features s' = Some fs
  /\ _train_factor s' = factor_in_use new_train_factor self
  /\ NoDup (_train_indices s')
  /\ (forall i, In i (_train_indices s') -> i < length fs)
  /\ StronglySorted le (_train_indices s')
  /\ StronglySorted le (_test_indices s')
  /\ Z.of_nat (length (_train_indices s'))
     = Z.max (Z.of_nat (length (_train_indices self)))
             (number_of_training_examples (length fs)
                (factor_in_use new_train_factor self))
  /\ Permutation (_test_indices s')
       (_test_indices self
        ++ filter (fun i => negb (py_in i (_train_indices s')))
             (seq 0 (length fs)))
  /\ length (_test_indices s')
     = length (_test_indices self)
       + (length fs - length (_train_indices s')).
Proof.
  intros Hfs Hnd Hrange Hrun.
  destruct (split_set_returned row rng fuel new_train_factor self k s' k' fs
              Hfs Hrun)
    as (extra & -> & Hnd' & Hnew & Hk & Hfull & Hlen).
  simpl.
  set (train := _train_indices self ++ extra) in *.
  assert (Hndt : NoDup train).
  { apply NoDup_app; repeat split; try assumption.
    intros i Hi Hi'. exact (proj1 (Hnew i Hi') Hi). }
  assert (Hrt : forall i, In i train -> i < length fs).
  { intros i Hi. apply in_app_or in Hi. destruct Hi as [Hi|Hi].
    - apply Hrange, Hi.
    - apply (Hnew i Hi). }
  assert (Hcomp : filter (fun i => negb (py_in i (py_sort train)))
                    (seq 0 (length fs))
                  = filter (fun i => negb (py_in i train))
                      (seq 0 (length fs))).
  { apply complement_ext. intros i. apply py_sort_in. }
  split; [reflexivity|]. split; [reflexivity|].
  split; [eapply Permutation_NoDup; [apply py_sort_permutation | exact Hndt]|].
  split; [intros i Hi; apply Hrt, py_sort_in, Hi|].
  split; [apply py_sort_ascending|]. split; [apply py_sort_ascending|].
  split; [|split].
  - rewrite py_sort_length.
    destruct (Z.ltb_spec (Z.of_nat (length (_train_indices self)))
                (number_of_training_examples (length fs)
                   (factor_in_use new_train_factor self))) as [Hlt|Hge].
    + rewrite (Hlen Hlt). lia.
    + destruct (Hfull Hge) as [E _]. unfold train. rewrite E, app_nil_r. lia.
  - rewrite Hcomp. apply Permutation_sym, py_sort_permutation.
  - rewrite !py_sort_length, length_app, complement_length by assumption.
    reflexivity.
Qed.

(** Called on empty index lists, as the constructor does, [split_set]
    establishes the invariants of the partition. *)
Lemma split_set_on_empty_lists (fuel : nat) (new_train_factor : option Q)
  (self : NNData row) (k : nat) (s' : NNData row) (k' : nat)
  (fs : list row) :
  _features self = Some fs ->
  _train_indices self = [] -> _test_indices self = [] ->
  (0 <= factor_in_use new_train_factor self)%Q ->
  split_set rng fuel new_train_factor self k = Returned (s', k') ->
  index_partition (length fs) (_train_factor s')
                  (_train_indices s') (_test_indices s').
Proof.
  intros Hfs Htr Hte Hpos Hrun.
  destruct (split_set_accumulates fuel new_train_factor self k s' k' fs Hfs)
    as (_ & Htf & Hnd & Hrange & Hs1 & Hs2 & Hlen & Hperm & _);
    try (rewrite Htr; solve [constructor | intros i []]); try exact Hrun.
  rewrite Hte in Hperm. simpl in Hperm.
  assert (Hin : forall i, In i (_test_indices s') <->
                          i < length fs /\ ~ In i (_train_indices s')).
  { intros i. split.
    - intros Hi. apply (Permutation_in _ Hperm) in Hi.
      apply filter_In in Hi. destruct Hi as [Hi Hn].
      apply in_seq in Hi. apply negb_true_iff, py_in_false in Hn.
      split; [lia | exact Hn].
    - intros [Hi Hn]. apply (Permutation_in _ (Permutation_sym Hperm)).
      apply filter_In. split; [apply in_seq; lia|].
      apply negb_true_iff, py_in_false. exact Hn. }
  unfold index_partition. split; [|split; [|split; [|split]]].
  - intros i Hi Hi'. apply Hin in Hi'. exact (proj2 Hi' Hi).
  - apply ascending_nodup_strict; assumption.
  - apply ascending_nodup_strict; [assumption|].
    eapply Permutation_NoDup; [apply Permutation_sym, Hperm|].
    apply NoDup_filter, seq_NoDup.
  - intros i. split.
    + intros [Hi|Hi]; [apply Hrange, Hi | apply Hin, Hi].
    + intros Hi. destruct (in_dec Nat.eq_dec i (_train_indices s')) as [H|H].
      * left. exact H.
      * right. apply Hin. split; assumption.
  - rewrite Hlen, Htr, Htf. simpl.
    pose proof (number_of_training_examples_nonneg (length fs) _ Hpos). lia.
Qed.

End Partition.

(** C9: a call of [split_set] that returns leaves the feature array, the
    label array and the two pools as they were; the train factor is as it
    was when no new ratio is given, and otherwise either as it was or the
    clamped new ratio.  No call raises. *)
Theorem split_set_frame (row : Type) (rng : nat -> nat) (fuel : nat)
  (new_train_factor : option Q) (self : NNData row) (k : nat) :
  (forall e s, split_set rng fuel new_train_factor self k <> Raised e s)
  /\ forall s' k',
       split_set rng fuel new_train_factor self k = Returned (s', k') ->
       _features s' = _features self
       /\ _labels s' = _labels self
       /\ _train_pool s' = _train_pool self
       /\ _test_pool s' = _test_pool self
       /\ (new_train_factor = None -> _train_factor s' = _train_factor self)
       /\ (_train_factor s' = _train_factor self
           \/ exists f, new_train_factor = Some f
                        /\ _train_factor s' = percentage_limiter f).
Proof.
  split; [intros e s; apply split_set_never_raises|].
  intros s' k' Hrun.
  destruct (_features self) as [fs|] eqn:Hfs.
  - destruct (split_set_returned row rng fuel new_train_factor self k s' k' fs
                Hfs Hrun) as (extra & -> & _).
    simpl. repeat split.
    + intros ->. reflexivity.
    + destruct new_train_factor as [f|]; [right | left; reflexivity].
      exists f. split; reflexivity.
  - rewrite (split_set_absent row rng fuel new_train_factor self k Hfs) in Hrun.
    injection Hrun as <- <-. simpl. rewrite Hfs.
    repeat split. left. reflexivity.
Qed.

Lemma split_set_frame_witness :
  exists s' k',
    split_set counting_rng 4 (Some (1 # 2)%Q)
      (mkNNData (Some [2; 3; 5; 7]) (Some [1; 0; 0; 1]) 1%Q [] [] [] []) 0
    = Returned (s', k')
    /\ _features s' = Some [2; 3; 5; 7]
    /\ _labels s' = Some [1; 0; 0; 1].
Proof.
  set (self := mkNNData (Some [2; 3; 5; 7]) (Some [1; 0; 0; 1]) 1%Q
                        [] [] [] []).
  destruct (split_set counting_rng 4 (Some (1 # 2)%Q) self 0)
    as [[s' k']|e s|] eqn:Hrun;
    [|vm_compute in Hrun; discriminate Hrun ..].
  exists s', k'. split; [reflexivity|].
  destruct (proj2 (split_set_frame nat counting_rng 4 (Some (1 # 2)%Q) self 0)
              s' k' Hrun) as (Hf & Hl & _).
  split; assumption.
Defined.

(** ** The constructor *)

Section Constructing.

Variables elem row : Type.
Variable coerce : elem -> option row.
Variable shape : elem -> list nat.
Variable rng : nat -> nat.

Lemma try_load_data_never_raises (fs ls : list elem) (self : NNData row)
  (e : exn) (s : NNData row) :
  try_load_data coerce shape (Some fs) (Some ls) self <> Raised e s.
Proof.
  unfold try_load_data, load_data.
  destruct (negb (length fs =? length ls)); [discriminate|].
  destruct (np_array coerce shape fs); [|discriminate].
  destruct (np_array coerce shape ls); discriminate.
Qed.

(** Both calls of [load_data] in the constructor succeed on convertible
    sequences of equal length; the instance that reaches [split_set] holds
    the two arrays, the clamped factor and empty index lists. *)
Lemma init_loaded (fuel : nat) (fs ls : list elem) (fa la : list row)
  (train_factor : Q) (k : nat) :
  length fs = length ls ->
  np_array coerce shape fs = Some fa -> np_array coerce shape ls = Some la ->
  __init__ coerce shape rng fuel (Some fs) (Some ls) train_factor k
  = split_set rng fuel None
      (mkNNData (Some fa) (Some la) (percentage_limiter train_factor)
                [] [] [] []) k.
Proof.
  intros Hlen Hfa Hla. unfold __init__, try_load_data, load_data.
  rewrite (proj2 (Nat.eqb_eq _ _) Hlen), Hfa, Hla. reflexivity.
Qed.

(** A failed validation in the constructor, with both sequences given,
    ends in the instance without features and labels. *)
Lemma init_invalid (fuel : nat) (fs ls : list elem) (train_factor : Q)
  (k : nat) :
  length fs <> length ls
  \/ np_array coerce shape fs = None \/ np_array coerce shape ls = None ->
  __init__ coerce shape rng fuel (Some fs) (Some ls) train_factor k
  = Returned (mkNNData None None (percentage_limiter train_factor)
                       [] [] [] [], k).
Proof.
  intros Hbad. unfold __init__, try_load_data, load_data.
  destruct (length fs =? length ls) eqn:E; simpl negb; cbv iota.
  - destruct Hbad as [Hne|Hbad];
      [apply Nat.eqb_eq in E; contradiction|].
    destruct (np_array coerce shape fs) as [fa|] eqn:Hfa.
    + destruct Hbad as [Hbad|Hbad]; [discriminate|].
      rewrite Hbad. reflexivity.
    + reflexivity.
  - reflexivity.
Qed.

(** Labels without features: the first branch stores an empty list, the
    second call of [load_data] then clears both fields. *)
Lemma init_labels_only (fuel : nat) (ls : list elem) (train_factor : Q)
  (k : nat) :
  __init__ coerce shape rng fuel None (Some ls) train_factor k
  = Returned (mkNNData None None (percentage_limiter train_factor)
                       [] [] [] [], k).
Proof. reflexivity. Qed.

(** No data at all: both fields are empty lists. *)
Lemma init_no_data (fuel : nat) (train_factor : Q) (k : nat) :
  __init__ coerce shape rng fuel None None train_factor k
  = Returned (mkNNData (Some []) (Some []) (percentage_limiter train_factor)
                       [] [] [] [], k).
Proof.
  unfold __init__. cbv zeta iota beta.
  rewrite split_set_no_rows by reflexivity. reflexivity.
Qed.

(** Apart from features given without labels, the constructor never
    raises. *)
Lemma init_never_raises (fuel : nat) (features labels : option (list elem))
  (train_factor : Q) (k : nat) (e : exn) (s : NNData row * nat) :
  features = None \/ labels <> None ->
  __init__ coerce shape rng fuel features labels train_factor k <> Raised e s.
Proof.
  intros Hok. destruct features as [fs|], labels as [ls|].
  - unfold __init__.
    destruct (try_load_data coerce shape (Some fs) (Some ls) blank)
      as [s1|e1 s1|] eqn:E1.
    + destruct (try_load_data coerce shape (Some fs) (Some ls) s1)
        as [s2|e2 s2|] eqn:E2.
      * apply split_set_never_raises.
      * exfalso. exact (try_load_data_never_raises _ _ _ _ _ E2).
      * discriminate.
    + exfalso. exact (try_load_data_never_raises _ _ _ _ _ E1).
    + discriminate.
  - destruct Hok as [H|H]; [discriminate | contradiction].
  - rewrite init_labels_only. discriminate.
  - rewrite init_no_data. discriminate.
Qed.

End Constructing.

(** C3 fails on the code: with features given and labels left at their
    default [None], the first [load_data] evaluates [len(None)]; the
    [TypeError] is not among the exceptions the constructor catches and
    leaves it, whatever the features, the train factor and the generator
    are. *)
Theorem init_raises_without_labels (elem row : Type)
  (coerce : elem -> option row) (shape : elem -> list nat)
  (rng : nat -> nat) (fuel : nat)
  (fs : list elem) (train_factor : Q) (k : nat) :
  __init__ coerce shape rng fuel (Some fs) None train_factor k
  = Raised TypeError (blank, k).
Proof. reflexivity. Qed.

(** C7: on an instance without features [split_set] returns, without
    touching the generator, and both index lists are empty; the instance
    built from no data has empty index lists, and every later call of
    [split_set] on it returns and leaves them empty. *)
Theorem split_set_without_data (elem row : Type)
  (coerce : elem -> option row) (shape : elem -> list nat)
  (rng : nat -> nat) :
  (forall fuel new_train_factor (self : NNData row) k,
      _features self = None ->
      exists s',
        split_set rng fuel new_train_factor self k = Returned (s', k)
        /\ _train_indices s' = [] /\ _test_indices s' = [])
  /\ (forall fuel train_factor k,
        exists s0,
          __init__ coerce shape rng fuel None None train_factor k = Returned (s0, k)
          /\ _train_indices s0 = [] /\ _test_indices s0 = []
          /\ forall fuel' new_train_factor k',
               exists s',
                 split_set rng fuel' new_train_factor s0 k' = Returned (s', k')
                 /\ _train_indices s' = [] /\ _test_indices s' = []).
Proof.
  split.
  - intros fuel ntf self k Hnone.
    rewrite (split_set_absent row rng fuel ntf self k Hnone).
    eexists. repeat split.
  - intros fuel tf k. rewrite init_no_data.
    eexists. split; [reflexivity|]. split; [reflexivity|].
    split; [reflexivity|].
    intros fuel' ntf k'. rewrite split_set_no_rows by reflexivity.
    eexists. repeat split.
Qed.

Lemma split_set_without_data_witness :
  exists s',
    split_set stuck_rng 0 (Some (py_float (3 # 10)))
      (mkNNData (row := list Q) None None (py_float (8 # 10)) [0; 1] [2] [] []) 5
    = Returned (s', 5)
    /\ _train_indices s' = [] /\ _test_indices s' = [].
Proof.
  apply (proj1 (split_set_without_data (list cell) (list Q) float_row row_shape
                  stuck_rng)).
  reflexivity.
Defined.

(** ** Calling [split_set] again *)

Section Repartition.

Variables elem row : Type.
Variable coerce : elem -> option row.
Variable shape : elem -> list nat.
Variable rng : nat -> nat.

(** What the two lists hold afterwards in terms of what they held
    before, for a call that finds the training list at or above its
    target. *)
Lemma split_set_target_reached (fuel : nat) (new_train_factor : option Q)
  (self : NNData row) (k : nat) (s' : NNData row) (k' : nat)
  (fs : list row) :
  _features self = Some fs ->
  (number_of_training_examples (length fs)
     (factor_in_use new_train_factor self)
   <= Z.of_nat (length (_train_indices self)))%Z ->
  split_set rng fuel new_train_factor self k = Returned (s', k') ->
  k' = k
  /\ Permutation (_train_indices s') (_train_indices self)
  /\ Permutation (_test_indices s')
       (_test_indices self
        ++ filter (fun i => negb (py_in i (_train_indices self)))
             (seq 0 (length fs))).
Proof.
  intros Hfs Hge Hrun.
  destruct (split_set_returned row rng fuel new_train_factor self k s' k' fs
              Hfs Hrun) as (extra & -> & _ & _ & _ & Hfull & _).
  destruct (Hfull Hge) as [-> ->]. simpl. rewrite app_nil_r.
  split; [reflexivity|].
  split; apply Permutation_sym, py_sort_permutation.
Qed.

(** The instance that [NNData(x, y)] builds from ten convertible rows at
    the default factor. *)
Lemma default_constructor_on_ten_rows (fuel : nat) (x y : list elem)
  (s0 : NNData row) (k0 : nat) :
  length x = 10 -> length y = 10 ->
  (forall e, In e (x ++ y) -> coerce e <> None) ->
  same_shape shape x = true -> same_shape shape y = true ->
  __init__ coerce shape rng fuel (Some x) (Some y) (py_float (9 # 10)) 0 = Returned (s0, k0) ->
  exists fa,
    _features s0 = Some fa /\ length fa = 10
    /\ NoDup (_train_indices s0)
    /\ (forall i, In i (_train_indices s0) -> i < 10)
    /\ length (_train_indices s0) = 9
    /\ _test_indices s0 <> []
    /\ length (_test_indices s0) = 1
    /\ (forall i, In i (_test_indices s0) -> i < 10 /\ ~ In i (_train_indices s0)).
Proof.
  intros Hx Hy Hall Hsf Hsl Hrun.
  destruct (np_array_succeeds elem row coerce shape x
              (fun e He => Hall e (in_or_app _ _ e (or_introl He))) Hsf)
    as (fa & Hfa).
  destruct (np_array_succeeds elem row coerce shape y
              (fun e He => Hall e (in_or_app _ _ e (or_intror He))) Hsl)
    as (la & Hla).
  rewrite (init_loaded elem row coerce shape rng fuel x y fa la _ 0) in Hrun
    by (congruence || assumption).
  assert (Hlen : length fa = 10)
    by (rewrite (np_array_length elem row coerce shape x fa Hfa); exact Hx).
  set (self := mkNNData (Some fa) (Some la) (percentage_limiter (py_float (9 # 10))) [] [] [] [])
    in Hrun.
  destruct (split_set_accumulates row rng fuel None self 0 s0 k0 fa eq_refl)
    as (Hf & _ & Hnd & Hrange & _ & _ & Hn & Hperm & Hnt);
    [constructor | intros i [] | exact Hrun |].
  rewrite Hlen in *. subst self.
  cbn [_train_indices _test_indices _train_factor factor_in_use app length]
    in Hn, Hperm, Hnt.
  assert (Hnine : length (_train_indices s0) = 9).
  { change (number_of_training_examples 10 (percentage_limiter (py_float (9 # 10))))
      with 9%Z in Hn. lia. }
  rewrite Hnine in Hnt. simpl in Hnt.
  exists fa. repeat split; try assumption.
  - intros E. rewrite E in Hnt. discriminate Hnt.
  - apply (Permutation_in _ Hperm), filter_In in H.
    destruct H as [H _]. apply in_seq in H. lia.
  - intros Hi. apply (Permutation_in _ Hperm), filter_In in H.
    destruct H as [_ H]. apply negb_true_iff, py_in_false in H. contradiction.
Qed.

Lemma nodup_app_disjoint {A : Type} (l1 l2 : list A) (a : A) :
  NoDup (l1 ++ l2) -> In a l1 -> In a l2 -> False.
Proof.
  induction l1 as [|b t IH]; simpl; intros Hnd H1 H2; [contradiction|].
  inversion Hnd as [|? ? Hnotin Hnd']; subst.
  destruct H1 as [->|H1].
  - apply Hnotin, in_or_app. right. exact H2.
  - exact (IH Hnd' H1 H2).
Qed.

(** The instance after [NNData(x, y)] and one [split_set(.3)]: the nine
    training indices of the constructor are still there, and the test
    list holds the one remaining index twice. *)
Lemma first_repartition_on_ten_rows (fuel : nat) (x y : list elem)
  (s1 : NNData row) (k1 : nat) :
  length x = 10 -> length y = 10 ->
  (forall e, In e (x ++ y) -> coerce e <> None) ->
  same_shape shape x = true -> same_shape shape y = true ->
  construct_then_split coerce shape rng fuel x y = Returned (s1, k1) ->
  exists fa,
    _features s1 = Some fa /\ length fa = 10
    /\ _train_factor s1 = (py_float (3 # 10))
    /\ NoDup (_train_indices s1)
    /\ (forall i, In i (_train_indices s1) -> i < 10)
    /\ length (_train_indices s1) = 9
    /\ length (_test_indices s1) = 2
    /\ ~ NoDup (_test_indices s1).
Proof.
  intros Hx Hy Hall Hsf Hsl Hrun. unfold construct_then_split in Hrun.
  destruct (__init__ coerce shape rng fuel (Some x) (Some y) (py_float (9 # 10)) 0)
    as [[s0 k0]|e s|] eqn:Hinit; try discriminate Hrun.
  destruct (default_constructor_on_ten_rows fuel x y s0 k0 Hx Hy Hall Hsf Hsl Hinit)
    as (fa & Hf0 & Hlen & Hnd0 & Hr0 & Hn0 & Hne0 & Ht0 & Hin0).
  assert (Htarget :
            (number_of_training_examples (length fa)
               (factor_in_use (Some (py_float (3 # 10))) s0)
             <= Z.of_nat (length (_train_indices s0)))%Z).
  { rewrite Hlen, Hn0.
    change (number_of_training_examples 10
              (factor_in_use (Some (py_float (3 # 10))) s0)) with 3%Z. lia. }
  destruct (split_set_accumulates row rng fuel (Some (py_float (3 # 10))) s0 k0 s1 k1 fa
              Hf0 Hnd0)
    as (Hf1 & Htf & Hnd1 & Hr1 & _ & _ & Hn1 & _ & Hnt);
    [rewrite Hlen; exact Hr0 | exact Hrun |].
  destruct (split_set_target_reached fuel (Some (py_float (3 # 10))) s0 k0 s1 k1 fa
              Hf0 Htarget Hrun) as (_ & _ & Hperm).
  rewrite Hlen in *.
  assert (Hnine : length (_train_indices s1) = 9).
  { rewrite Hn0 in Hn1.
    change (number_of_training_examples 10
              (factor_in_use (Some (py_float (3 # 10))) s0)) with 3%Z in Hn1. lia. }
  exists fa. split; [exact Hf1|]. split; [exact Hlen|].
  split; [exact Htf|]. split; [exact Hnd1|]. split; [exact Hr1|].
  split; [exact Hnine|]. split; [rewrite Hnt, Ht0, Hnine; reflexivity|].
  intros Hnd. apply (Permutation_NoDup Hperm) in Hnd.
  destruct (_test_indices s0) as [|i t] eqn:Et; [contradiction|].
  destruct (Hin0 i (or_introl eq_refl)) as [Hi Hni].
  apply (nodup_app_disjoint _ _ i Hnd); [left; reflexivity|].
  apply filter_In. split; [apply in_seq; lia|].
  apply negb_true_iff, py_in_false. exact Hni.
Qed.

End Repartition.

(** C1 fails on the code: [split_set] does not empty the two index lists
    before it fills them.  After [NNData(x, y)] on ten rows and
    [split_set(.3)], whatever the generator drew, the training list still
    has the nine indices of the constructor's call while
    [floor(10 * 0.3)] is three, the test list holds an index twice, and so
    the invariants of the partition do not hold. *)
Theorem split_set_again_breaks_partition (elem row : Type)
  (coerce : elem -> option row) (shape : elem -> list nat)
  (rng : nat -> nat) (fuel : nat)
  (x y : list elem) (s : NNData row) (k : nat) :
  length x = 10 -> length y = 10 ->
  (forall e, In e (x ++ y) -> coerce e <> None) ->
  same_shape shape x = true -> same_shape shape y = true ->
  construct_then_split coerce shape rng fuel x y = Returned (s, k) ->
  length (_train_indices s) = 9
  /\ number_of_training_examples 10 (_train_factor s) = 3%Z
  /\ ~ NoDup (_test_indices s)
  /\ ~ index_partition 10 (_train_factor s)
         (_train_indices s) (_test_indices s).
Proof.
  intros Hx Hy Hall Hsf Hsl Hrun.
  destruct (first_repartition_on_ten_rows elem row coerce shape rng fuel x y s k
              Hx Hy Hall Hsf Hsl Hrun)
    as (fa & _ & _ & Htf & _ & _ & Hnine & _ & Hdup).
  split; [exact Hnine|]. rewrite Htf.
  split; [reflexivity|]. split; [exact Hdup|].
  intros (_ & _ & Hsorted & _). apply Hdup, strict_nodup, Hsorted.
Qed.

Lemma range10_convertible (e : cell) :
  In e (range10 ++ range10) -> float_of_cell e <> None.
Proof.
  intros He. apply in_app_or in He.
  assert (H : In e range10) by (destruct He; assumption).
  unfold range10 in H. apply in_map_iff in H.
  destruct H as (i & <- & _). discriminate.
Qed.

Lemma split_set_again_breaks_partition_witness :
  exists s k,
    construct_then_split float_of_cell cell_shape counting_rng 10 range10 range10
    = Returned (s, k)
    /\ length (_train_indices s) = 9
    /\ ~ NoDup (_test_indices s).
Proof.
  destruct (construct_then_split float_of_cell cell_shape counting_rng 10 range10 range10)
    as [[s k]|e s|] eqn:Hrun;
    [|vm_compute in Hrun; discriminate Hrun ..].
  exists s, k. split; [reflexivity|].
  destruct (split_set_again_breaks_partition cell Q float_of_cell cell_shape counting_rng
              10 range10 range10 s k eq_refl eq_refl range10_convertible eq_refl eq_refl
              Hrun) as (H9 & _ & Hdup & _).
  split; assumption.
Defined.

(** C2 fails on the code: a further call of [split_set] keeps the earlier
    index lists and adds to them.  After [NNData(x, y)] on ten rows,
    [split_set(.3)] leaves nine training and two test indices, and a second
    [split_set(.3)] leaves nine and three, whatever the generator drew;
    neither call leaves three and seven. *)
Theorem split_set_twice_keeps_old_indices (elem row : Type)
  (coerce : elem -> option row) (shape : elem -> list nat)
  (rng : nat -> nat) (fuel : nat)
  (x y : list elem) (s2 : NNData row) (k2 : nat) :
  length x = 10 -> length y = 10 ->
  (forall e, In e (x ++ y) -> coerce e <> None) ->
  same_shape shape x = true -> same_shape shape y = true ->
  construct_then_split_twice coerce shape rng fuel x y = Returned (s2, k2) ->
  exists s1,
    construct_then_split coerce shape rng fuel x y = Returned (s1, k2)
    /\ length (_train_indices s1) = 9 /\ length (_test_indices s1) = 2
    /\ length (_train_indices s2) = 9 /\ length (_test_indices s2) = 3.
Proof.
  intros Hx Hy Hall Hsf Hsl Hrun. unfold construct_then_split_twice in Hrun.
  destruct (construct_then_split coerce shape rng fuel x y)
    as [[s1 k1]|e s|] eqn:Hfirst; try discriminate Hrun.
  destruct (first_repartition_on_ten_rows elem row coerce shape rng fuel x y s1 k1
              Hx Hy Hall Hsf Hsl Hfirst)
    as (fa & Hf1 & Hlen & _ & Hnd1 & Hr1 & Hn1 & Ht1 & _).
  assert (Htarget :
            (number_of_training_examples (length fa)
               (factor_in_use (Some (py_float (3 # 10))) s1)
             <= Z.of_nat (length (_train_indices s1)))%Z).
  { rewrite Hlen, Hn1.
    change (number_of_training_examples 10
              (factor_in_use (Some (py_float (3 # 10))) s1)) with 3%Z. lia. }
  destruct (split_set_accumulates row rng fuel (Some (py_float (3 # 10))) s1 k1 s2 k2 fa
              Hf1 Hnd1)
    as (_ & _ & _ & _ & _ & _ & Hn2 & _ & Hnt);
    [rewrite Hlen; exact Hr1 | exact Hrun |].
  destruct (split_set_target_reached row rng fuel (Some (py_float (3 # 10))) s1 k1 s2 k2
              fa Hf1 Htarget Hrun) as (-> & _).
  rewrite Hlen in *.
  assert (Hnine : length (_train_indices s2) = 9).
  { rewrite Hn1 in Hn2.
    change (number_of_training_examples 10
              (factor_in_use (Some (py_float (3 # 10))) s1)) with 3%Z in Hn2. lia. }
  exists s1. split; [reflexivity|]. split; [exact Hn1|].
  split; [exact Ht1|]. split; [exact Hnine|].
  rewrite Hnt, Ht1, Hnine. reflexivity.
Qed.

Lemma split_set_twice_keeps_old_indices_witness :
  exists s2 k2,
    construct_then_split_twice float_of_cell cell_shape counting_rng 10 range10 range10
    = Returned (s2, k2)
    /\ length (_train_indices s2) = 9 /\ length (_test_indices s2) = 3.
Proof.
  destruct (construct_then_split_twice float_of_cell cell_shape counting_rng 10
              range10 range10) as [[s2 k2]|e s|] eqn:Hrun;
    [|vm_compute in Hrun; discriminate Hrun ..].
  exists s2, k2. split; [reflexivity|].
  destruct (split_set_twice_keeps_old_indices cell Q float_of_cell cell_shape
              counting_rng 10 range10 range10 s2 k2 eq_refl eq_refl
              range10_convertible eq_refl eq_refl Hrun) as (s1 & _ & _ & _ & H9 & H3).
  split; assumption.
Defined.

(** ** [load_data] on the data of [unit_test] *)

Lemma load_data_mismatch_raises_witness :
  exists s',
    load_data float_row row_shape (Some bad_features_lengths) (Some xor_labels) blank
    = Raised DataMismatchError s'
    /\ _features s' = None /\ _labels s' = None.
Proof.
  apply (load_data_mismatch_raises (list cell) (list Q) float_row row_shape
           bad_features_lengths xor_labels blank).
  simpl. lia.
Defined.

Lemma load_data_length_check_first_witness :
  (exists s',
      load_data float_row row_shape (Some bad_features_lengths) (Some bad_label_value)
                blank = Raised DataMismatchError s')
  /\ (forall s',
         load_data float_row row_shape (Some bad_features_lengths)
                   (Some bad_label_value) blank <> Raised ValueError s').
Proof.
  apply (load_data_length_check_first (list cell) (list Q) float_row row_shape
           bad_features_lengths bad_label_value blank).
  - simpl. lia.
  - exists [Word "Cat"]. split; [|reflexivity].
    simpl. right. right. right. right. left. reflexivity.
Defined.

Lemma load_data_equal_lengths_witness :
  exists fa la,
    load_data float_row row_shape (Some xor_features) (Some xor_labels) blank
    = Returned (set_labels (Some la) (set_features (Some fa) blank))
    /\ Forall2 (fun x r => float_row x = Some r) xor_features fa
    /\ Forall2 (fun x r => float_row x = Some r) xor_labels la
    /\ length fa = 4 /\ length la = 4.
Proof.
  destruct (load_data_equal_lengths (list cell) (list Q) float_row row_shape
              xor_features xor_labels blank eq_refl) as (_ & _ & Hok).
  apply Hok; [|reflexivity|reflexivity].
  intros x Hx. simpl in Hx.
  repeat (destruct Hx as [<-|Hx]; [discriminate|]). contradiction.
Defined.

(** C5, as the claim has it, fails: two feature rows of different width
    with two labels have equal outer length and hold numbers only, yet
    [load_data] raises [ValueError]. *)
Lemma load_data_ragged_rows_raise :
  length ragged_features = length two_labels
  /\ ~ ((exists s',
            load_data float_row row_shape (Some ragged_features)
                      (Some two_labels) blank = Raised ValueError s')
        <-> (exists r c, In r (ragged_features ++ two_labels)
                         /\ In c r /\ float_of_cell c = None)).
Proof.
  split; [reflexivity|]. intros [Hraise _].
  destruct Hraise as (r & c & Hr & Hc & Hn); [eexists; reflexivity|].
  simpl in Hr.
  repeat (destruct Hr as [<-|Hr];
          [simpl in Hc;
           repeat (destruct Hc as [<-|Hc]; [discriminate Hn|]);
           contradiction|]).
  contradiction.
Qed.

(** * Further properties of the class *)

(** ** Fuel *)

Section Fuel.

Variable rng : nat -> nat.




End Fuel.

(** ** Strictly ascending lists *)

Lemma strict_sorted_unique (l1 l2 : list nat) :
  StronglySorted lt l1 -> StronglySorted lt l2 ->
  (forall i, In i l1 <-> In i l2) -> l1 = l2.
Proof.
  intros H1. revert l2.
  induction H1 as [|a t1 Hs1 IH Ha]; intros l2 H2 Hiff.
  - destruct l2 as [|b t2]; [reflexivity|].
    exfalso. apply (proj2 (Hiff b)). left. reflexivity.
  - destruct l2 as [|b t2].
    + exfalso. apply (proj1 (Hiff a)). left. reflexivity.
    + inversion H2 as [|? ? Hs2 Hb]; subst.
      rewrite Forall_forall in Ha, Hb.
      assert (Hab : a = b).
      { destruct (proj1 (Hiff a) (or_introl eq_refl)) as [E|Hin];
          [congruence|].
        destruct (proj2 (Hiff b) (or_introl eq_refl)) as [E|Hin'];
          [congruence|].
        specialize (Ha b Hin'). specialize (Hb a Hin). lia. }
      subst b. f_equal. apply IH; [exact Hs2|].
      intros i. split; intros Hi.
      * destruct (proj1 (Hiff i) (or_intror Hi)) as [E|Hin]; [|exact Hin].
        specialize (Ha i Hi). lia.
      * destruct (proj2 (Hiff i) (or_intror Hi)) as [E|Hin]; [|exact Hin].
        specialize (Hb i Hi). lia.
Qed.

Lemma seq_strict (n start : nat) : StronglySorted lt (seq start n).
Proof.
  revert start. induction n as [|n IH]; intros start; simpl; constructor.
  - apply IH.
  - apply Forall_forall. intros i Hi. apply in_seq in Hi. lia.
Qed.

(** ** The target count at the ends of the unit interval *)

Lemma number_of_training_examples_full (size : nat) (train_factor : Q) :
  (1 <= train_factor)%Q ->
  number_of_training_examples size (percentage_limiter train_factor)
  = Z.of_nat size.
Proof.
  intros H1.
  assert (E : (percentage_limiter train_factor == 1)%Q).
  { unfold percentage_limiter.
    destruct (Qlt_le_dec 1 train_factor) as [H|H]; [reflexivity|].
    destruct (Qlt_le_dec train_factor 0) as [H0|H0].
    - exfalso. apply (Qlt_not_le _ _ H0).
      apply Qle_trans with 1%Q; [discriminate | exact H1].
    - apply Qle_antisym; assumption. }
  unfold number_of_training_examples.
  rewrite (round_double_integer _ (Z.of_nat size)); [apply Qfloor_Z | lia|].
  rewrite E. apply Qmult_1_r.
Qed.

Lemma number_of_training_examples_none (size : nat) (train_factor : Q) :
  (train_factor <= 0)%Q ->
  number_of_training_examples size (percentage_limiter train_factor) = 0%Z.
Proof.
  intros H0.
  assert (E : (percentage_limiter train_factor == 0)%Q).
  { unfold percentage_limiter.
    destruct (Qlt_le_dec 1 train_factor) as [H|H].
    - exfalso. apply (Qlt_not_le _ _ H).
      apply Qle_trans with 0%Q; [exact H0 | discriminate].
    - destruct (Qlt_le_dec train_factor 0) as [H'|H']; [reflexivity|].
      apply Qle_antisym; assumption. }
  unfold number_of_training_examples.
  rewrite (round_double_integer _ 0); [reflexivity | lia|].
  rewrite E. apply Qmult_0_r.
Qed.

Lemma percentage_limiter_bounds (value : Q) :
  (0 <= percentage_limiter value <= 1)%Q.
Proof.
  unfold percentage_limiter.
  destruct (Qlt_le_dec 1 value) as [Hhi|Hhi]; [split; discriminate|].
  destruct (Qlt_le_dec value 0) as [Hlo|Hlo]; [split; discriminate|].
  split; assumption.
Qed.

(** ** The constructor on data that passes validation *)

Section ValidData.

Variables elem row : Type.
Variable coerce : elem -> option row.
Variable shape : elem -> list nat.
Variable rng : nat -> nat.

Lemma split_set_runs (fuel : nat) (new_train_factor : option Q)
  (self : NNData row) (k : nat) (fs : list row) (r : list nat * nat) :
  _features self = Some fs ->
  sampling_loop rng fuel (seq 0 (length fs))
    (number_of_training_examples (length fs)
       (factor_in_use new_train_factor self))
    (_train_indices self) k = Returned r ->
  exists s', split_set rng fuel new_train_factor self k = Returned (s', snd r).
Proof.
  intros Hfs Hloop. unfold split_set. rewrite Hfs. cbv zeta.
  destruct new_train_factor as [f|]; simpl in Hloop |- *;
    rewrite Hloop; destruct r as [train k']; eexists; reflexivity.
Qed.

Lemma split_set_terminates (new_train_factor : option Q)
  (self : NNData row) (k : nat) (fs : list row) :
  _features self = Some fs ->
  (factor_in_use new_train_factor self <= 1)%Q ->
  serves rng (length fs) k ->
  exists fuel0,
    forall fuel, fuel0 <= fuel ->
      exists s' k', split_set rng fuel new_train_factor self k
                    = Returned (s', k').
Proof.
  intros Hfs Hle Hserves.
  pose proof (number_of_training_examples_le (length fs) _ Hle) as Hnum.
  destruct (Nat.eq_dec (length fs) 0) as [Hz|Hnz].
  - exists 0. intros fuel _.
    destruct (split_set_runs fuel new_train_factor self k fs
                (_train_indices self, k) Hfs) as (s' & Hrun).
    { apply sampling_loop_stop. rewrite Hz in Hnum |- *. simpl in Hnum.
      rewrite number_of_training_examples_zero. lia. }
    exists s', k. exact Hrun.
  - destruct (serves_bound rng (length fs) k Hserves) as (bound & Hb & Hcov).
    exists (bound - k). intros fuel Hfuel.
    destruct (sampling_loop_finishes rng (length fs) k bound _
                ltac:(lia) Hnum Hcov (bound - k) (_train_indices self) k
                ltac:(lia) ltac:(lia) ltac:(intros j Hj; lia) fuel Hfuel)
      as (r & Hloop).
    destruct (split_set_runs fuel new_train_factor self k fs r Hfs Hloop)
      as (s' & Hrun).
    exists s', (snd r). exact Hrun.
Qed.

Lemma init_valid_returned (fuel : nat) (fs ls : list elem)
  (train_factor : Q) (k : nat) (s : NNData row) (k' : nat) :
  length fs = length ls ->
  (forall e, In e (fs ++ ls) -> coerce e <> None) ->
  same_shape shape fs = true -> same_shape shape ls = true ->
  __init__ coerce shape rng fuel (Some fs) (Some ls) train_factor k
  = Returned (s, k') ->
  exists fa la,
    np_array coerce shape fs = Some fa /\ np_array coerce shape ls = Some la
    /\ _features s = Some fa /\ _labels s = Some la
    /\ _train_factor s = percentage_limiter train_factor
    /\ _train_pool s = [] /\ _test_pool s = []
    /\ index_partition (length fs) (percentage_limiter train_factor)
         (_train_indices s) (_test_indices s)
    /\ k <= k'.
Proof.
  intros Hlen Hall Hsf Hsl Hrun.
  destruct (np_array_succeeds elem row coerce shape fs
              (fun e He => Hall e (in_or_app _ _ e (or_introl He))) Hsf)
    as (fa & Hfa).
  destruct (np_array_succeeds elem row coerce shape ls
              (fun e He => Hall e (in_or_app _ _ e (or_intror He))) Hsl)
    as (la & Hla).
  rewrite (init_loaded elem row coerce shape rng fuel fs ls fa la _ k Hlen Hfa Hla)
    in Hrun.
  set (self := mkNNData (Some fa) (Some la) (percentage_limiter train_factor)
                        [] [] [] []) in Hrun.
  pose proof (split_set_on_empty_lists row rng fuel None self k s k' fa
                eq_refl eq_refl eq_refl
                (proj1 (percentage_limiter_bounds train_factor)) Hrun)
    as Hpart.
  destruct (split_set_returned row rng fuel None self k s k' fa eq_refl Hrun)
    as (extra & Es & _ & _ & Hk & _).
  rewrite (np_array_length elem row coerce shape fs fa Hfa) in Hpart.
  exists fa, la. rewrite Es in Hpart |- *. simpl in Hpart |- *.
  split; [exact Hfa|]. split; [exact Hla|].
  do 5 (split; [reflexivity|]).
  split; [exact Hpart | exact Hk].
Qed.

Lemma init_valid_terminates (fs ls : list elem) (train_factor : Q)
  (k : nat) :
  length fs = length ls ->
  (forall e, In e (fs ++ ls) -> coerce e <> None) ->
  same_shape shape fs = true -> same_shape shape ls = true ->
  serves rng (length fs) k ->
  exists fuel0,
    forall fuel, fuel0 <= fuel ->
      exists s k', __init__ coerce shape rng fuel (Some fs) (Some ls) train_factor k
                   = Returned (s, k').
Proof.
  intros Hlen Hall Hsf Hsl Hserves.
  destruct (np_array_succeeds elem row coerce shape fs
              (fun e He => Hall e (in_or_app _ _ e (or_introl He))) Hsf)
    as (fa & Hfa).
  destruct (np_array_succeeds elem row coerce shape ls
              (fun e He => Hall e (in_or_app _ _ e (or_intror He))) Hsl)
    as (la & Hla).
  set (self := mkNNData (Some fa) (Some la) (percentage_limiter train_factor)
                        [] [] [] []).
  destruct (split_set_terminates None self k fa eq_refl) as (fuel0 & Hfuel).
  - apply (proj2 (percentage_limiter_bounds train_factor)).
  - rewrite (np_array_length elem row coerce shape fs fa Hfa). exact Hserves.
  - exists fuel0. intros fuel Hge.
    rewrite (init_loaded elem row coerce shape rng fuel fs ls fa la _ k Hlen Hfa Hla).
    apply Hfuel, Hge.
Qed.

End ValidData.

Lemma xor_convertible (e : list cell) :
  In e (xor_features ++ xor_labels) -> float_row e <> None.
Proof.
  intros He. simpl in He.
  repeat (destruct He as [<-|He]; [discriminate|]). contradiction.
Qed.

Lemma counting_serves (n : nat) : serves counting_rng n 0.
Proof.
  intros i Hi. exists i. split; [lia|].
  unfold randint, counting_rng. replace (n - 1 - 0 + 1) with n by lia.
  simpl. apply Nat.mod_small. exact Hi.
Qed.

(** X1: whenever the constructor returns on two sequences of equal length
    whose entries all convert, the instance holds both arrays with the
    length of the input, the clamped train factor, and index lists that
    satisfy the invariants of the partition for that factor; this holds
    for every generator. *)
Theorem constructor_builds_partition (elem row : Type)
  (coerce : elem -> option row) (shape : elem -> list nat)
  (rng : nat -> nat) (fuel : nat)
  (fs ls : list elem) (train_factor : Q) (k : nat)
  (s : NNData row) (k' : nat) :
  length fs = length ls ->
  (forall e, In e (fs ++ ls) -> coerce e <> None) ->
  same_shape shape fs = true -> same_shape shape ls = true ->
  __init__ coerce shape rng fuel (Some fs) (Some ls) train_factor k
  = Returned (s, k') ->
  exists fa la,
    np_array coerce shape fs = Some fa /\ np_array coerce shape ls = Some la
    /\ _features s = Some fa /\ _labels s = Some la
    /\ length fa = length fs /\ length la = length fs
    /\ _train_factor s = percentage_limiter train_factor
    /\ index_partition (length fs) (_train_factor s)
         (_train_indices s) (_test_indices s).
Proof.
  intros Hlen Hall Hsf Hsl Hrun.
  destruct (init_valid_returned elem row coerce shape rng fuel fs ls train_factor
              k s k' Hlen Hall Hsf Hsl Hrun)
    as (fa & la & Hfa & Hla & Hf & Hl & Htf & _ & _ & Hpart & _).
  exists fa, la. rewrite Htf.
  split; [exact Hfa|]. split; [exact Hla|].
  split; [exact Hf|]. split; [exact Hl|].
  split; [apply (np_array_length elem row coerce shape), Hfa|].
  split; [rewrite Hlen; apply (np_array_length elem row coerce shape), Hla|].
  split; [reflexivity | exact Hpart].
Qed.

Lemma constructor_builds_partition_witness :
  exists s k',
    __init__ float_row row_shape counting_rng 10 (Some xor_features) (Some xor_labels)
             (py_float (8 # 10)) 0 = Returned (s, k')
    /\ index_partition 4 (_train_factor s)
         (_train_indices s) (_test_indices s).
Proof.
  destruct (__init__ float_row row_shape counting_rng 10 (Some xor_features)
              (Some xor_labels) (py_float (8 # 10)) 0) as [[s k']|e s|] eqn:Hrun;
    [|vm_compute in Hrun; discriminate Hrun ..].
  exists s, k'. split; [reflexivity|].
  destruct (constructor_builds_partition (list cell) (list Q) float_row row_shape
              counting_rng 10 xor_features xor_labels (py_float (8 # 10)) 0 s k'
              eq_refl xor_convertible eq_refl eq_refl Hrun)
    as (fa & la & _ & _ & _ & _ & _ & _ & _ & Hpart).
  exact Hpart.
Defined.

(** X2: on such data the constructor returns, for all fuel above some
    amount, whenever the generator serves the range of row indices. *)
Theorem constructor_terminates_when_served (elem row : Type)
  (coerce : elem -> option row) (shape : elem -> list nat)
  (rng : nat -> nat)
  (fs ls : list elem) (train_factor : Q) (k : nat) :
  length fs = length ls ->
  (forall e, In e (fs ++ ls) -> coerce e <> None) ->
  same_shape shape fs = true -> same_shape shape ls = true ->
  serves rng (length fs) k ->
  exists fuel0,
    forall fuel, fuel0 <= fuel ->
      exists s k',
        __init__ coerce shape rng fuel (Some fs) (Some ls) train_factor k
        = Returned (s, k').
Proof.
  intros Hlen Hall Hsf Hsl Hserves.
  exact (init_valid_terminates elem row coerce shape rng fs ls train_factor k
           Hlen Hall Hsf Hsl Hserves).
Qed.

Lemma constructor_terminates_when_served_witness :
  exists fuel0,
    forall fuel, fuel0 <= fuel ->
      exists s k',
        __init__ float_row row_shape counting_rng fuel (Some xor_features)
                 (Some xor_labels) (py_float (8 # 10)) 0 = Returned (s, k').
Proof.
  apply (constructor_terminates_when_served (list cell) (list Q) float_row row_shape
           counting_rng xor_features xor_labels (py_float (8 # 10)) 0).
  - reflexivity.
  - exact xor_convertible.
  - reflexivity.
  - reflexivity.
  - apply counting_serves.
Defined.

(** X3: with both sequences given, unequal lengths, an entry that does
    not convert or rows of different shape make the constructor return,
    for every fuel and without a draw, an instance without features and
    labels, with empty index lists and the clamped factor. *)
Theorem constructor_rejects_bad_data (elem row : Type)
  (coerce : elem -> option row) (shape : elem -> list nat)
  (rng : nat -> nat) (fuel : nat)
  (fs ls : list elem) (train_factor : Q) (k : nat) :
  length fs <> length ls
  \/ (exists e, In e (fs ++ ls) /\ coerce e = None)
  \/ same_shape shape fs = false \/ same_shape shape ls = false ->
  exists s,
    __init__ coerce shape rng fuel (Some fs) (Some ls) train_factor k
    = Returned (s, k)
    /\ _features s = None /\ _labels s = None
    /\ _train_indices s = [] /\ _test_indices s = []
    /\ _train_factor s = percentage_limiter train_factor.
Proof.
  intros Hbad.
  rewrite (init_invalid elem row coerce shape rng fuel fs ls train_factor k).
  - eexists. repeat split.
  - destruct Hbad as [Hne|[(e & He & Hn)|[Hs|Hs]]]; [left; exact Hne | right ..].
    + apply in_app_or in He. destruct He as [He|He]; [left | right];
        apply np_array_fails_iff; left; exists e; split; assumption.
    + left. apply np_array_fails_iff. right. exact Hs.
    + right. apply np_array_fails_iff. right. exact Hs.
Qed.

Lemma constructor_rejects_bad_data_witness :
  exists s,
    __init__ float_row row_shape stuck_rng 0 (Some xor_features) (Some bad_label_value)
             (py_float (8 # 10)) 0 = Returned (s, 0)
    /\ _features s = None /\ _labels s = None
    /\ _train_indices s = [] /\ _test_indices s = []
    /\ _train_factor s = percentage_limiter (py_float (8 # 10)).
Proof.
  apply (constructor_rejects_bad_data (list cell) (list Q) float_row row_shape
           stuck_rng 0 xor_features bad_label_value (py_float (8 # 10)) 0).
  right. left. exists [Word "Cat"]. split; [|reflexivity].
  simpl. do 6 right. left. reflexivity.
Defined.

(** X4: for every train factor that is a number, the constructor raises
    exactly when features are given and labels are not.  (A factor that is
    not a number is outside the model; see the conventions.) *)
Theorem constructor_raises_iff (elem row : Type)
  (coerce : elem -> option row) (shape : elem -> list nat)
  (rng : nat -> nat) (fuel : nat)
  (features labels : option (list elem)) (train_factor : Q) (k : nat) :
  (exists e s, __init__ coerce shape rng fuel features labels train_factor k
               = Raised e s)
  <-> (features <> None /\ labels = None).
Proof.
  split.
  - intros (e & s & Hrun).
    destruct features as [fs|], labels as [ls|]; try (split; congruence);
      exfalso;
      refine (init_never_raises elem row coerce shape rng fuel _ _ train_factor k
                e s _ Hrun);
      (left; reflexivity) || (right; discriminate).
  - intros [Hf Hl]. destruct features as [fs|]; [|contradiction].
    subst labels. exists TypeError, (blank, k). reflexivity.
Qed.

(** X5: an instance that the constructor returns has features and labels
    both absent, or both present with the same number of rows. *)
Theorem constructor_both_or_neither (elem row : Type)
  (coerce : elem -> option row) (shape : elem -> list nat)
  (rng : nat -> nat) (fuel : nat)
  (features labels : option (list elem)) (train_factor : Q) (k : nat)
  (s : NNData row) (k' : nat) :
  __init__ coerce shape rng fuel features labels train_factor k = Returned (s, k') ->
  (_features s = None /\ _labels s = None)
  \/ (exists fa la, _features s = Some fa /\ _labels s = Some la
                    /\ length fa = length la).
Proof.
  intros Hrun. destruct features as [fs|], labels as [ls|].
  - destruct (Nat.eq_dec (length fs) (length ls)) as [Hlen|Hne].
    + destruct (np_array coerce shape fs) as [fa|] eqn:Hfa.
      * destruct (np_array coerce shape ls) as [la|] eqn:Hla.
        -- rewrite (init_loaded elem row coerce shape rng fuel fs ls fa la _ k
                      Hlen Hfa Hla) in Hrun.
           match type of Hrun with
           | split_set _ _ _ ?self _ = _ =>
               destruct (split_set_returned row rng fuel None self k s k' fa
                           eq_refl Hrun) as (extra & -> & _)
           end.
           right. exists fa, la. simpl. repeat split.
           rewrite (np_array_length elem row coerce shape fs fa Hfa).
           rewrite (np_array_length elem row coerce shape ls la Hla). exact Hlen.
        -- rewrite (init_invalid elem row coerce shape rng fuel fs ls _ k) in Hrun
             by (right; right; exact Hla).
           injection Hrun as <- <-. left. split; reflexivity.
      * rewrite (init_invalid elem row coerce shape rng fuel fs ls _ k) in Hrun
          by (right; left; exact Hfa).
        injection Hrun as <- <-. left. split; reflexivity.
    + rewrite (init_invalid elem row coerce shape rng fuel fs ls _ k) in Hrun
        by (left; exact Hne).
      injection Hrun as <- <-. left. split; reflexivity.
  - discriminate Hrun.
  - rewrite init_labels_only in Hrun. injection Hrun as <- <-.
    left. split; reflexivity.
  - rewrite init_no_data in Hrun. injection Hrun as <- <-.
    right. exists [], []. repeat split.
Qed.

Lemma constructor_both_or_neither_witness :
  exists s k',
    __init__ float_row row_shape stuck_rng 0 None (Some xor_labels) (py_float (9 # 10)) 3
    = Returned (s, k')
    /\ ((_features s = None /\ _labels s = None)
        \/ (exists fa la, _features s = Some fa /\ _labels s = Some la
                          /\ length fa = length la)).
Proof.
  eexists. eexists. split; [reflexivity|].
  apply (constructor_both_or_neither (list cell) (list Q) float_row row_shape
           stuck_rng 0 None (Some xor_labels) (py_float (9 # 10)) 3 _ _ eq_refl).
Defined.

(** ** [load_data] as a whole *)

Section LoadData.

Variables elem row : Type.
Variable coerce : elem -> option row.
Variable shape : elem -> list nat.

Lemma load_data_valid (fs ls : list elem) (self : NNData row) :
  length fs = length ls ->
  (forall e, In e (fs ++ ls) -> coerce e <> None) ->
  same_shape shape fs = true -> same_shape shape ls = true ->
  exists fa la,
    np_array coerce shape fs = Some fa /\ np_array coerce shape ls = Some la
    /\ load_data coerce shape (Some fs) (Some ls) self
       = Returned (set_labels (Some la) (set_features (Some fa) self)).
Proof.
  intros Hlen Hall Hsf Hsl.
  destruct (np_array_succeeds elem row coerce shape fs
              (fun e He => Hall e (in_or_app _ _ e (or_introl He))) Hsf)
    as (fa & Hfa).
  destruct (np_array_succeeds elem row coerce shape ls
              (fun e He => Hall e (in_or_app _ _ e (or_intror He))) Hsl)
    as (la & Hla).
  exists fa, la. split; [exact Hfa|]. split; [exact Hla|].
  unfold load_data. rewrite (proj2 (Nat.eqb_eq _ _) Hlen), Hfa, Hla.
  reflexivity.
Qed.

(** Every way out of [load_data], with the state it leaves. *)
Lemma load_data_cases (features labels : option (list elem))
  (self : NNData row) :
  load_data coerce shape features labels self = Returned (set_absent self)
  \/ load_data coerce shape features labels self
     = Raised DataMismatchError (set_absent self)
  \/ load_data coerce shape features labels self
     = Raised ValueError (set_absent self)
  \/ (load_data coerce shape features labels self = Raised TypeError self
      /\ features <> None /\ labels = None)
  \/ (exists fs ls fa la,
         features = Some fs /\ labels = Some ls
         /\ np_array coerce shape fs = Some fa /\ np_array coerce shape ls = Some la
         /\ length fs = length ls
         /\ load_data coerce shape features labels self
            = Returned (set_labels (Some la) (set_features (Some fa) self))).
Proof.
  destruct features as [fs|]; [|left; reflexivity].
  destruct labels as [ls|].
  - unfold load_data. destruct (length fs =? length ls) eqn:E; simpl negb;
      cbv iota; [|right; left; reflexivity].
    apply Nat.eqb_eq in E.
    destruct (np_array coerce shape fs) as [fa|] eqn:Hfa;
      [|right; right; left; reflexivity].
    destruct (np_array coerce shape ls) as [la|] eqn:Hla;
      [|right; right; left; reflexivity].
    do 4 right. exists fs, ls, fa, la. repeat split; assumption.
  - do 3 right. left. repeat split. discriminate.
Qed.

End LoadData.

(** X6: [load_data] returns with features and labels both absent or both
    present with the same number of rows; it raises [TypeError] exactly
    when features are given without labels, and then the instance is left
    as it was, old arrays included; after any other exception both fields
    are absent. *)
Theorem load_data_outcomes (elem row : Type) (coerce : elem -> option row) (shape : elem -> list nat)
  (features labels : option (list elem)) (self : NNData row) :
  (forall s', load_data coerce shape features labels self = Returned s' ->
      (_features s' = None /\ _labels s' = None)
      \/ (exists fa la, _features s' = Some fa /\ _labels s' = Some la
                        /\ length fa = length la))
  /\ (forall e s', load_data coerce shape features labels self = Raised e s' ->
        (e = TypeError /\ s' = self /\ features <> None /\ labels = None)
        \/ ((e = DataMismatchError \/ e = ValueError)
            /\ _features s' = None /\ _labels s' = None))
  /\ (features <> None /\ labels = None ->
      load_data coerce shape features labels self = Raised TypeError self).
Proof.
  destruct (load_data_cases elem row coerce shape features labels self)
    as [H|[H|[H|[(H & Hf & Hl)|(fs & ls & fa & la & -> & -> & Hfa & Hla & Hlen & H)]]]];
    rewrite H; (split; [|split]); try (intros s' E; discriminate E);
    try (intros e s' E; discriminate E).
  - intros s' E. injection E as <-. left. split; reflexivity.
  - intros [Hf Hl]. destruct features; [|contradiction]. subst labels.
    discriminate H.
  - intros e s' E. injection E as <- <-. right.
    split; [left; reflexivity | split; reflexivity].
  - intros [Hf Hl]. destruct features; [|contradiction]. subst labels.
    discriminate H.
  - intros e s' E. injection E as <- <-. right.
    split; [right; reflexivity | split; reflexivity].
  - intros [Hf Hl]. destruct features; [|contradiction]. subst labels.
    discriminate H.
  - intros e s' E. injection E as <- <-. left. repeat split; assumption.
  - intros _. reflexivity.
  - intros s' E. injection E as <-. right. exists fa, la. simpl.
    repeat split.
    rewrite (np_array_length elem row coerce shape fs fa Hfa).
    rewrite (np_array_length elem row coerce shape ls la Hla). exact Hlen.
  - intros [_ Hl]. discriminate Hl.
Qed.

Lemma load_data_outcomes_witness :
  load_data float_row row_shape (Some xor_features) None
    (mkNNData (Some [[1%Q]]) (Some [[0%Q]]) 1%Q [0] [] [] [])
  = Raised TypeError
      (mkNNData (Some [[1%Q]]) (Some [[0%Q]]) 1%Q [0] [] [] []).
Proof.
  apply (proj2 (proj2 (load_data_outcomes (list cell) (list Q) float_row row_shape
                         (Some xor_features) None _))).
  split; [discriminate | reflexivity].
Defined.

(** X7: whatever its outcome, [load_data] leaves the train factor, both
    index lists and both pools as they were; index lists computed for
    earlier data survive a reload. *)
Theorem load_data_frame (elem row : Type) (coerce : elem -> option row) (shape : elem -> list nat)
  (features labels : option (list elem)) (self s' : NNData row) :
  load_data coerce shape features labels self = Returned s'
  \/ (exists e, load_data coerce shape features labels self = Raised e s') ->
  _train_factor s' = _train_factor self
  /\ _train_indices s' = _train_indices self
  /\ _test_indices s' = _test_indices self
  /\ _train_pool s' = _train_pool self
  /\ _test_pool s' = _test_pool self.
Proof.
  intros Hout.
  destruct (load_data_cases elem row coerce shape features labels self)
    as [H|[H|[H|[(H & _)|(fs & ls & fa & la & _ & _ & _ & _ & _ & H)]]]];
    rewrite H in Hout; destruct Hout as [E|(e & E)];
    try discriminate E; inversion E; subst; repeat split.
Qed.

Lemma load_data_frame_witness :
  exists s',
    load_data float_row row_shape (Some bad_features_lengths) (Some xor_labels)
      (mkNNData (Some [[1%Q]; [2%Q]]) (Some [[0%Q]; [1%Q]]) (1 # 2)%Q
                [1] [0] [] [])
    = Raised DataMismatchError s'
    /\ _train_indices s' = [1] /\ _test_indices s' = [0].
Proof.
  eexists. split; [reflexivity|].
  destruct (load_data_frame (list cell) (list Q) float_row row_shape
              (Some bad_features_lengths) (Some xor_labels)
              (mkNNData (Some [[1%Q]; [2%Q]]) (Some [[0%Q]; [1%Q]]) (1 # 2)%Q
                        [1] [0] [] []) _
              (or_intror (ex_intro _ DataMismatchError eq_refl)))
    as (_ & Htr & Hte & _).
  split; assumption.
Defined.

(** ** [split_set] as a whole *)

Lemma split_set_factor (row : Type) (rng : nat -> nat) (fuel : nat)
  (new_train_factor : option Q) (self : NNData row) (k : nat)
  (s' : NNData row) (k' : nat) :
  split_set rng fuel new_train_factor self k = Returned (s', k') ->
  _train_factor s'
  = match _features self with
    | Some _ => factor_in_use new_train_factor self
    | None => _train_factor self
    end.
Proof.
  intros Hrun. destruct (_features self) as [fs|] eqn:Hfs.
  - destruct (split_set_returned row rng fuel new_train_factor self k s' k' fs
                Hfs Hrun) as (extra & -> & _). reflexivity.
  - rewrite (split_set_absent row rng fuel new_train_factor self k Hfs) in Hrun.
    injection Hrun as <- <-. reflexivity.
Qed.

(** X8: on present features a returning call of [split_set] removes
    nothing: every index that was in a list is still in it, and neither
    list gets shorter. *)
Theorem split_set_never_removes (row : Type) (rng : nat -> nat) (fuel : nat)
  (new_train_factor : option Q) (self : NNData row) (k : nat)
  (s' : NNData row) (k' : nat) :
  _features self <> None ->
  split_set rng fuel new_train_factor self k = Returned (s', k') ->
  incl (_train_indices self) (_train_indices s')
  /\ incl (_test_indices self) (_test_indices s')
  /\ length (_train_indices self) <= length (_train_indices s')
  /\ length (_test_indices self) <= length (_test_indices s').
Proof.
  intros Hsome Hrun.
  destruct (_features self) as [fs|] eqn:Hfs; [|contradiction].
  destruct (split_set_returned row rng fuel new_train_factor self k s' k' fs
              Hfs Hrun) as (extra & -> & _).
  simpl. rewrite !py_sort_length, !length_app.
  split; [|split; [|split; lia]];
    intros i Hi; apply py_sort_in, in_or_app; left; exact Hi.
Qed.

Lemma split_set_never_removes_witness :
  exists s' k',
    split_set counting_rng 5 (Some (1 # 2)%Q)
      (mkNNData (Some [2; 3; 5; 7]) (Some [1; 0; 0; 1]) 1%Q
                [0; 1; 2; 3] [] [] []) 0
    = Returned (s', k')
    /\ incl [0; 1; 2; 3] (_train_indices s').
Proof.
  set (self := mkNNData (Some [2; 3; 5; 7]) (Some [1; 0; 0; 1]) 1%Q
                        [0; 1; 2; 3] [] [] []).
  destruct (split_set counting_rng 5 (Some (1 # 2)%Q) self 0)
    as [[s' k']|e s|] eqn:Hrun;
    [|vm_compute in Hrun; discriminate Hrun ..].
  exists s', k'. split; [reflexivity|].
  apply (split_set_never_removes nat counting_rng 5 (Some (1 # 2)%Q) self 0
           s' k'); [discriminate | exact Hrun].
Defined.

(** X9: a returning call on present features whose training list is free
    of duplicates and within range leaves a training list with the larger
    of its old length and the target, still free of duplicates and within
    range, and a test list that is longer by the number of rows outside
    the training list; when the training list already reaches the target
    no random number is drawn. *)
Theorem split_set_counts (row : Type) (rng : nat -> nat) (fuel : nat)
  (new_train_factor : option Q) (self : NNData row) (k : nat)
  (s' : NNData row) (k' : nat) (fs : list row) :
  _features self = Some fs ->
  NoDup (_train_indices self) ->
  (forall i, In i (_train_indices self) -> i < length fs) ->
  split_set rng fuel new_train_factor self k = Returned (s', k') ->
  NoDup (_train_indices s')
  /\ (forall i, In i (_train_indices s') -> i < length fs)
  /\ Z.of_nat (length (_train_indices s'))
     = Z.max (Z.of_nat (length (_train_indices self)))
             (number_of_training_examples (length fs)
                (factor_in_use new_train_factor self))
  /\ length (_test_indices s')
     = length (_test_indices self)
       + (length fs - length (_train_indices s'))
  /\ ((number_of_training_examples (length fs)
         (factor_in_use new_train_factor self)
       <= Z.of_nat (length (_train_indices self)))%Z -> k' = k).
Proof.
  intros Hfs Hnd Hrange Hrun.
  destruct (split_set_accumulates row rng fuel new_train_factor self k s' k' fs
              Hfs Hnd Hrange Hrun)
    as (_ & _ & Hnd' & Hr' & _ & _ & Hlen & _ & Htest).
  repeat split; try assumption.
  intros Hge.
  apply (split_set_target_reached row rng fuel new_train_factor self k s' k' fs
           Hfs Hge Hrun).
Qed.

Lemma split_set_counts_witness :
  exists s' k',
    split_set counting_rng 5 (Some (1 # 2)%Q)
      (mkNNData (Some [2; 3; 5; 7]) (Some [1; 0; 0; 1]) 1%Q
                [0; 1; 3] [2] [] []) 0
    = Returned (s', k')
    /\ length (_train_indices s') = 3 /\ length (_test_indices s') = 2.
Proof.
  set (self := mkNNData (Some [2; 3; 5; 7]) (Some [1; 0; 0; 1]) 1%Q
                        [0; 1; 3] [2] [] []).
  destruct (split_set counting_rng 5 (Some (1 # 2)%Q) self 0)
    as [[s' k']|e s|] eqn:Hrun;
    [|vm_compute in Hrun; discriminate Hrun ..].
  exists s', k'. split; [reflexivity|].
  destruct (split_set_counts nat counting_rng 5 (Some (1 # 2)%Q) self 0 s' k'
              [2; 3; 5; 7] eq_refl) as (_ & _ & Hlen & Htest & _).
  - repeat constructor; simpl; lia.
  - intros i Hi. simpl in Hi |- *.
    repeat (destruct Hi as [<-|Hi]; [lia|]). contradiction.
  - exact Hrun.
  - change (number_of_training_examples (length [2; 3; 5; 7])
              (factor_in_use (Some (1 # 2)%Q) self)) with 2%Z in Hlen.
    simpl in Hlen, Htest.
    assert (H3 : length (_train_indices s') = 3) by lia.
    rewrite H3 in Htest. split; [exact H3 | exact Htest].
Defined.

(** X10: the stored train factor stays in the unit interval: the
    constructor stores the clamped factor, and [split_set] keeps the
    factor in the interval. *)
Theorem train_factor_stays_clamped (elem row : Type)
  (coerce : elem -> option row) (shape : elem -> list nat)
  (rng : nat -> nat) (fuel : nat) :
  (forall features labels train_factor k s k',
      __init__ coerce shape rng fuel features labels train_factor k
      = Returned (s, k') ->
      _train_factor s = percentage_limiter train_factor
      /\ (0 <= _train_factor s <= 1)%Q)
  /\ (forall new_train_factor (self : NNData row) k s' k',
        split_set rng fuel new_train_factor self k = Returned (s', k') ->
        (0 <= _train_factor self <= 1)%Q ->
        (0 <= _train_factor s' <= 1)%Q).
Proof.
  split.
  - intros features labels tf k s k' Hrun.
    assert (E : _train_factor s = percentage_limiter tf).
    { unfold __init__ in Hrun.
      destruct (match features with
                | Some _ => try_load_data coerce shape features labels blank
                | None => Returned (set_features (Some []) blank)
                end) as [s1|e s1|]; try discriminate Hrun.
      destruct (match labels with
                | Some _ => try_load_data coerce shape features labels s1
                | None => Returned (set_labels (Some []) s1)
                end) as [s2|e s2|]; try discriminate Hrun.
      rewrite (split_set_factor row rng fuel None _ k s k' Hrun).
      simpl. destruct (_features s2); reflexivity. }
    rewrite E. split; [reflexivity | apply percentage_limiter_bounds].
  - intros ntf self k s' k' Hrun Hin.
    rewrite (split_set_factor row rng fuel ntf self k s' k' Hrun).
    destruct (_features self); [|exact Hin].
    destruct ntf as [f|]; simpl;
      [apply percentage_limiter_bounds | exact Hin].
Qed.

Lemma train_factor_stays_clamped_witness :
  exists s k',
    __init__ float_row row_shape counting_rng 10 (Some xor_features) (Some xor_labels)
             (-5)%Q 0 = Returned (s, k')
    /\ (0 <= _train_factor s <= 1)%Q.
Proof.
  destruct (__init__ float_row row_shape counting_rng 10 (Some xor_features)
              (Some xor_labels) (-5)%Q 0) as [[s k']|e s|] eqn:Hrun;
    [|vm_compute in Hrun; discriminate Hrun ..].
  exists s, k'. split; [reflexivity|].
  apply (proj1 (train_factor_stays_clamped (list cell) (list Q) float_row row_shape
                  counting_rng 10) _ _ _ _ _ _ Hrun).
Defined.

(** ** The ends of the unit interval *)

Lemma partition_all_train (n : nat) (r : Q) (train test : list nat) :
  index_partition n r train test -> length train = n ->
  train = seq 0 n /\ test = [].
Proof.
  intros (Hdisj & Hs1 & Hs2 & Hunion & _) Hlen.
  assert (Hall : forall i, In i train <-> i < n).
  { intros i. split.
    - intros Hi. apply Hunion. left. exact Hi.
    - intros Hi.
      assert (Hincl : incl (seq 0 n) train).
      { apply NoDup_length_incl.
        - apply strict_nodup, Hs1.
        - rewrite length_seq. lia.
        - intros j Hj. apply in_seq. split; [lia|]. simpl.
          apply Hunion. left. exact Hj. }
      apply Hincl, in_seq. lia. }
  split.
  - apply strict_sorted_unique; [exact Hs1 | apply seq_strict|].
    intros i. rewrite Hall, in_seq. lia.
  - destruct test as [|i t]; [reflexivity|]. exfalso.
    apply (Hdisj i); [|left; reflexivity].
    apply Hall, Hunion. right. left. reflexivity.
Qed.

Lemma partition_all_test (n : nat) (r : Q) (train test : list nat) :
  index_partition n r train test -> length train = 0 ->
  train = [] /\ test = seq 0 n.
Proof.
  intros (_ & _ & Hs2 & Hunion & _) Hlen.
  destruct train as [|a t]; [|discriminate Hlen].
  split; [reflexivity|].
  apply strict_sorted_unique; [exact Hs2 | apply seq_strict|].
  intros i. rewrite in_seq. split.
  - intros Hi. assert (i < n) by (apply Hunion; right; exact Hi). lia.
  - intros Hi. destruct (proj2 (Hunion i) ltac:(lia)) as [[]|H]. exact H.
Qed.

Lemma init_full_factor (elem row : Type)
  (coerce : elem -> option row) (shape : elem -> list nat)
  (rng : nat -> nat) (fuel : nat)
  (fs ls : list elem) (train_factor : Q) (k : nat)
  (s : NNData row) (k' : nat) :
  length fs = length ls ->
  (forall e, In e (fs ++ ls) -> coerce e <> None) ->
  same_shape shape fs = true -> same_shape shape ls = true ->
  (1 <= train_factor)%Q ->
  __init__ coerce shape rng fuel (Some fs) (Some ls) train_factor k
  = Returned (s, k') ->
  _train_indices s = seq 0 (length fs) /\ _test_indices s = [].
Proof.
  intros Hlen Hall Hsf Hsl Hone Hrun.
  destruct (init_valid_returned elem row coerce shape rng fuel fs ls train_factor
              k s k' Hlen Hall Hsf Hsl Hrun)
    as (fa & la & _ & _ & _ & _ & _ & _ & _ & Hpart & _).
  apply (partition_all_train _ _ _ _ Hpart).
  destruct Hpart as (_ & _ & _ & _ & Hcount).
  rewrite (number_of_training_examples_full _ _ Hone) in Hcount. lia.
Qed.

(** X11: with a train factor of one or more, every row is a training row:
    whenever the constructor returns on data that passes validation, the
    training list is [0 .. n-1] and the test list is empty. *)
Theorem full_factor_trains_on_all (elem row : Type)
  (coerce : elem -> option row) (shape : elem -> list nat)
  (rng : nat -> nat) (fuel : nat)
  (fs ls : list elem) (train_factor : Q) (k : nat)
  (s : NNData row) (k' : nat) :
  length fs = length ls ->
  (forall e, In e (fs ++ ls) -> coerce e <> None) ->
  same_shape shape fs = true -> same_shape shape ls = true ->
  (1 <= train_factor)%Q ->
  __init__ coerce shape rng fuel (Some fs) (Some ls) train_factor k
  = Returned (s, k') ->
  _train_indices s = seq 0 (length fs) /\ _test_indices s = [].
Proof.
  intros Hlen Hall Hsf Hsl Hone Hrun.
  exact (init_full_factor elem row coerce shape rng fuel fs ls train_factor k s k'
           Hlen Hall Hsf Hsl Hone Hrun).
Qed.

Lemma full_factor_trains_on_all_witness :
  exists s k',
    __init__ float_row row_shape counting_rng 4 (Some xor_features) (Some xor_labels)
             5%Q 0 = Returned (s, k')
    /\ _train_indices s = [0; 1; 2; 3] /\ _test_indices s = [].
Proof.
  destruct (__init__ float_row row_shape counting_rng 4 (Some xor_features)
              (Some xor_labels) 5%Q 0) as [[s k']|e s|] eqn:Hrun;
    [|vm_compute in Hrun; discriminate Hrun ..].
  exists s, k'. split; [reflexivity|].
  apply (full_factor_trains_on_all (list cell) (list Q) float_row row_shape counting_rng
           4 xor_features xor_labels 5%Q 0 s k' eq_refl xor_convertible eq_refl eq_refl);
    [discriminate | exact Hrun].
Defined.

Lemma init_zero_factor (elem row : Type)
  (coerce : elem -> option row) (shape : elem -> list nat)
  (rng : nat -> nat) (fuel : nat)
  (fs ls : list elem) (train_factor : Q) (k : nat) :
  length fs = length ls ->
  (forall e, In e (fs ++ ls) -> coerce e <> None) ->
  same_shape shape fs = true -> same_shape shape ls = true ->
  (train_factor <= 0)%Q ->
  exists s,
    __init__ coerce shape rng fuel (Some fs) (Some ls) train_factor k
    = Returned (s, k)
    /\ _train_indices s = [] /\ _test_indices s = seq 0 (length fs).
Proof.
  intros Hlen Hall Hsf Hsl Hzero.
  destruct (np_array_succeeds elem row coerce shape fs
              (fun e He => Hall e (in_or_app _ _ e (or_introl He))) Hsf)
    as (fa & Hfa).
  destruct (np_array_succeeds elem row coerce shape ls
              (fun e He => Hall e (in_or_app _ _ e (or_intror He))) Hsl)
    as (la & Hla).
  set (self := mkNNData (Some fa) (Some la) (percentage_limiter train_factor)
                        [] [] [] []).
  destruct (split_set_runs row rng fuel None self k fa ([], k) eq_refl)
    as (s & Hsplit).
  { apply sampling_loop_stop. simpl.
    rewrite (number_of_training_examples_none _ _ Hzero). lia. }
  simpl in Hsplit.
  assert (Hrun : __init__ coerce shape rng fuel (Some fs) (Some ls) train_factor k
                 = Returned (s, k)).
  { rewrite (init_loaded elem row coerce shape rng fuel fs ls fa la _ k
               Hlen Hfa Hla). exact Hsplit. }
  exists s. split; [exact Hrun|].
  destruct (init_valid_returned elem row coerce shape rng fuel fs ls train_factor
              k s k Hlen Hall Hsf Hsl Hrun)
    as (fa' & la' & _ & _ & _ & _ & _ & _ & _ & Hpart & _).
  apply (partition_all_test _ _ _ _ Hpart).
  destruct Hpart as (_ & _ & _ & _ & Hcount).
  rewrite (number_of_training_examples_none _ _ Hzero) in Hcount. lia.
Qed.

(** X12: with a train factor of zero or less, every row is a test row and
    nothing is drawn: on data that passes validation the constructor
    returns for every fuel and every generator, at the position of the
    generator where it started, with an empty training list and the test
    list [0 .. n-1]. *)
Theorem zero_factor_tests_on_all (elem row : Type)
  (coerce : elem -> option row) (shape : elem -> list nat)
  (rng : nat -> nat) (fuel : nat)
  (fs ls : list elem) (train_factor : Q) (k : nat) :
  length fs = length ls ->
  (forall e, In e (fs ++ ls) -> coerce e <> None) ->
  same_shape shape fs = true -> same_shape shape ls = true ->
  (train_factor <= 0)%Q ->
  exists s,
    __init__ coerce shape rng fuel (Some fs) (Some ls) train_factor k
    = Returned (s, k)
    /\ _train_indices s = [] /\ _test_indices s = seq 0 (length fs).
Proof.
  intros Hlen Hall Hsf Hsl Hzero.
  exact (init_zero_factor elem row coerce shape rng fuel fs ls train_factor k
           Hlen Hall Hsf Hsl Hzero).
Qed.

Lemma zero_factor_tests_on_all_witness :
  exists s,
    __init__ float_row row_shape stuck_rng 0 (Some xor_features) (Some xor_labels)
             (-5)%Q 7 = Returned (s, 7)
    /\ _train_indices s = [] /\ _test_indices s = seq 0 4.
Proof.
  apply (zero_factor_tests_on_all (list cell) (list Q) float_row row_shape stuck_rng 0
           xor_features xor_labels (-5)%Q 7 eq_refl xor_convertible eq_refl eq_refl).
  discriminate.
Defined.



(** ** Loading after construction *)

(** X14: the sequence that works: an instance built without data, then
    [load_data] on data that passes validation, then [split_set]; whenever
    that [split_set] returns, the index lists satisfy the invariants of the
    partition for the number of rows loaded and the factor in use. *)
Theorem empty_instance_load_then_split (elem row : Type)
  (coerce : elem -> option row) (shape : elem -> list nat)
  (rng : nat -> nat) (fuel0 : nat)
  (train_factor : Q) (k0 : nat) (fs ls : list elem) :
  length fs = length ls ->
  (forall e, In e (fs ++ ls) -> coerce e <> None) ->
  same_shape shape fs = true -> same_shape shape ls = true ->
  exists s0 s1,
    __init__ coerce shape rng fuel0 None None train_factor k0 = Returned (s0, k0)
    /\ load_data coerce shape (Some fs) (Some ls) s0 = Returned s1
    /\ forall fuel new_train_factor k s2 k',
         split_set rng fuel new_train_factor s1 k = Returned (s2, k') ->
         _train_factor s2 = factor_in_use new_train_factor s0
         /\ index_partition (length fs) (_train_factor s2)
              (_train_indices s2) (_test_indices s2).
Proof.
  intros Hlen Hall Hsf Hsl. rewrite init_no_data.
  set (s0 := mkNNData (Some []) (Some [])
                      (percentage_limiter train_factor) [] [] [] []).
  destruct (load_data_valid elem row coerce shape fs ls s0 Hlen Hall Hsf Hsl)
    as (fa & la & Hfa & _ & Hload).
  exists s0, (set_labels (Some la) (set_features (Some fa) s0)).
  split; [reflexivity|]. split; [exact Hload|].
  intros fuel ntf k s2 k' Hrun.
  set (s1 := set_labels (Some la) (set_features (Some fa) s0)) in *.
  assert (Hfactor : factor_in_use ntf s1 = factor_in_use ntf s0)
    by (destruct ntf; reflexivity).
  pose proof (split_set_factor row rng fuel ntf s1 k s2 k' Hrun) as Htf.
  simpl in Htf. rewrite Hfactor in Htf. split; [exact Htf|].
  rewrite <- (np_array_length elem row coerce shape fs fa Hfa).
  apply (split_set_on_empty_lists row rng fuel ntf s1 k s2 k' fa);
    try reflexivity; [|exact Hrun].
  rewrite Hfactor. destruct ntf as [f|]; simpl;
    apply percentage_limiter_bounds.
Qed.

Lemma empty_instance_load_then_split_witness :
  exists s0 s1,
    __init__ float_row row_shape counting_rng 0 None None (py_float (9 # 10)) 0
    = Returned (s0, 0)
    /\ load_data float_row row_shape (Some xor_features) (Some xor_labels) s0
       = Returned s1
    /\ forall fuel new_train_factor k s2 k',
         split_set counting_rng fuel new_train_factor s1 k
         = Returned (s2, k') ->
         _train_factor s2 = factor_in_use new_train_factor s0
         /\ index_partition (length xor_features) (_train_factor s2)
              (_train_indices s2) (_test_indices s2).
Proof.
  apply (empty_instance_load_then_split (list cell) (list Q) float_row row_shape
           counting_rng 0 (py_float (9 # 10)) 0 xor_features xor_labels eq_refl
           xor_convertible eq_refl eq_refl).
Defined.

(** X15: index lists outlive the data they were computed for: after the
    constructor has partitioned [n] rows, a successful [load_data] of
    fewer rows followed by [split_set] leaves an index in the lists that
    is out of range for the rows now stored. *)
Theorem reload_leaves_index_out_of_range (elem row : Type)
  (coerce : elem -> option row) (shape : elem -> list nat)
  (rng : nat -> nat) (fuel0 fuel : nat)
  (fs ls fs' ls' : list elem) (train_factor : Q)
  (new_train_factor : option Q) (k0 k1 k k' : nat)
  (s0 s1 s2 : NNData row) :
  length fs = length ls ->
  (forall e, In e (fs ++ ls) -> coerce e <> None) ->
  same_shape shape fs = true -> same_shape shape ls = true ->
  length fs' = length ls' ->
  (forall e, In e (fs' ++ ls') -> coerce e <> None) ->
  same_shape shape fs' = true -> same_shape shape ls' = true ->
  length fs' < length fs ->
  __init__ coerce shape rng fuel0 (Some fs) (Some ls) train_factor k0
  = Returned (s0, k1) ->
  load_data coerce shape (Some fs') (Some ls') s0 = Returned s1 ->
  split_set rng fuel new_train_factor s1 k = Returned (s2, k') ->
  (exists fa', _features s2 = Some fa' /\ length fa' = length fs')
  /\ exists i, length fs' <= i
               /\ (In i (_train_indices s2) \/ In i (_test_indices s2)).
Proof.
  intros Hlen Hall Hsf Hsl Hlen' Hall' Hsf' Hsl' Hless Hinit Hload Hsplit.
  destruct (init_valid_returned elem row coerce shape rng fuel0 fs ls train_factor
              k0 s0 k1 Hlen Hall Hsf Hsl Hinit)
    as (fa & la & _ & _ & _ & _ & _ & _ & _ & Hpart & _).
  destruct Hpart as (_ & _ & _ & Hunion & _).
  destruct (load_data_valid elem row coerce shape fs' ls' s0 Hlen' Hall' Hsf' Hsl')
    as (fa' & la' & Hfa' & _ & Hload').
  rewrite Hload' in Hload. injection Hload as <-.
  set (s1 := set_labels (Some la') (set_features (Some fa') s0)) in *.
  destruct (split_set_returned row rng fuel new_train_factor s1 k s2 k' fa'
              eq_refl Hsplit) as (extra & -> & _).
  simpl. split.
  - exists fa'. split; [reflexivity|].
    apply (np_array_length elem row coerce shape), Hfa'.
  - exists (length fs - 1). split; [lia|].
    destruct (proj2 (Hunion (length fs - 1)) ltac:(lia)) as [Hi|Hi];
      [left | right]; apply py_sort_in, in_or_app; left; exact Hi.
Qed.

Lemma reload_leaves_index_out_of_range_witness :
  exists s0 k1 s1 s2 k',
    __init__ float_row row_shape counting_rng 4 (Some xor_features) (Some xor_labels)
             1%Q 0 = Returned (s0, k1)
    /\ load_data float_row row_shape (Some bad_features_lengths)
                 (Some [nums [0]; nums [1]]%Z) s0 = Returned s1
    /\ split_set counting_rng 4 None s1 k1 = Returned (s2, k')
    /\ exists i, 2 <= i
                 /\ (In i (_train_indices s2) \/ In i (_test_indices s2)).
Proof.
  destruct (__init__ float_row row_shape counting_rng 4 (Some xor_features)
              (Some xor_labels) 1%Q 0) as [[s0 k1]|e s|] eqn:Hinit;
    [|vm_compute in Hinit; discriminate Hinit ..].
  destruct (load_data float_row row_shape (Some bad_features_lengths)
              (Some [nums [0]; nums [1]]%Z) s0) as [s1|e s|] eqn:Hload;
    [|vm_compute in Hinit; injection Hinit as <- <-;
      vm_compute in Hload; discriminate Hload ..].
  destruct (split_set counting_rng 4 None s1 k1) as [[s2 k']|e s|] eqn:Hsplit;
    [|vm_compute in Hinit; injection Hinit as <- <-;
      vm_compute in Hload; injection Hload as <-;
      vm_compute in Hsplit; discriminate Hsplit ..].
  exists s0, k1, s1, s2, k'.
  split; [reflexivity|]. split; [exact Hload|]. split; [exact Hsplit|].
  apply (reload_leaves_index_out_of_range (list cell) (list Q) float_row row_shape
           counting_rng 4 4 xor_features xor_labels bad_features_lengths
           [nums [0]; nums [1]]%Z 1%Q None 0 k1 k1 k' s0 s1 s2
           eq_refl xor_convertible eq_refl eq_refl eq_refl);
    try assumption.
  - intros e He. simpl in He.
    repeat (destruct He as [<-|He]; [discriminate|]). contradiction.
  - reflexivity.
  - reflexivity.
  - simpl. lia.
Defined.

(** ** The repository's tests *)



Section UnitTest1.

Variable list_of_set : list nat -> list nat.
Variable rng : nat -> nat.





End UnitTest1.




Section UnitTest.

Variable rng : nat -> nat.

Lemma check_mismatch (fuel k : nat) :
  check_load_raises DataMismatchError bad_features_lengths rng fuel k
  = Returned ([SUCCESS], k).
Proof. unfold check_load_raises. rewrite init_no_data. reflexivity. Qed.

Lemma check_value (fuel k : nat) :
  check_load_raises ValueError bad_features_values rng fuel k
  = Returned ([SUCCESS], k).
Proof. unfold check_load_raises. rewrite init_no_data. reflexivity. Qed.

Lemma check_bad_features (fuel k : nat) :
  check_constructed bad_features_values xor_labels (py_float (8 # 10)) both_absent
                    rng fuel k
  = Returned ([SUCCESS], k).
Proof.
  unfold check_constructed.
  rewrite init_invalid by (right; left; reflexivity). reflexivity.
Qed.

Lemma check_bad_labels (fuel k : nat) :
  check_constructed xor_features bad_label_value (py_float (8 # 10)) both_absent
                    rng fuel k
  = Returned ([SUCCESS], k).
Proof.
  unfold check_constructed.
  rewrite init_invalid by (right; right; reflexivity). reflexivity.
Qed.

Lemma check_negative_factor (fuel k : nat) :
  check_constructed xor_features xor_labels (-5)%Q
    (fun test5 => Qeq_bool (_train_factor test5) 0) rng fuel k
  = Returned ([SUCCESS], k).
Proof.
  unfold check_constructed.
  destruct (init_zero_factor (list cell) (list Q) float_row row_shape rng fuel
              xor_features xor_labels (-5)%Q k eq_refl xor_convertible eq_refl eq_refl)
    as (s & Hrun & _); [discriminate|].
  rewrite Hrun.
  destruct (init_valid_returned (list cell) (list Q) float_row row_shape rng fuel
              xor_features xor_labels (-5)%Q k s k eq_refl xor_convertible eq_refl eq_refl
              Hrun) as (fa & la & _ & _ & _ & _ & Htf & _).
  rewrite Htf. reflexivity.
Qed.

Lemma check_large_factor (fuel k : nat) :
  check_constructed xor_features xor_labels 5%Q
    (fun test6 => Qeq_bool (_train_factor test6) 1) rng fuel k = OutOfFuel
  \/ exists k',
       check_constructed xor_features xor_labels 5%Q
         (fun test6 => Qeq_bool (_train_factor test6) 1) rng fuel k
       = Returned ([SUCCESS], k').
Proof.
  unfold check_constructed.
  destruct (__init__ float_row row_shape rng fuel (Some xor_features)
              (Some xor_labels) 5%Q k) as [[s k']|e s|] eqn:Hrun.
  - right. exists k'.
    destruct (init_valid_returned (list cell) (list Q) float_row row_shape rng fuel
                xor_features xor_labels 5%Q k s k' eq_refl xor_convertible eq_refl eq_refl
                Hrun) as (fa & la & _ & _ & _ & _ & Htf & _).
    rewrite Htf. reflexivity.
  - exfalso.
    refine (init_never_raises (list cell) (list Q) float_row row_shape rng fuel _ _ _ k
              e s _ Hrun). right. discriminate.
  - left. reflexivity.
Qed.

Lemma unit_test_unfold (fuel k : nat) :
  unit_test rng fuel k
  = then_check (Returned ([SUCCESS; SUCCESS; SUCCESS; SUCCESS; SUCCESS], k))
      (check_constructed xor_features xor_labels 5%Q
         (fun test6 => Qeq_bool (_train_factor test6) 1) rng fuel).
Proof.
  unfold unit_test. rewrite check_mismatch.
  unfold then_check at 5. rewrite check_value.
  unfold then_check at 4. rewrite check_bad_features.
  unfold then_check at 3. rewrite check_bad_labels.
  unfold then_check at 2. rewrite check_negative_factor.
  reflexivity.
Qed.

End UnitTest.

(** X17: [unit_test] lets no exception escape; whenever it returns, each
    of its six checks has printed its success message; it returns, for all
    fuel above some amount, when the generator serves the four indices
    that the last check draws from. *)
Theorem unit_test_all_success (rng : nat -> nat) (k : nat) :
  (forall fuel e s, unit_test rng fuel k <> Raised e s)
  /\ (forall fuel printed k',
         unit_test rng fuel k = Returned (printed, k') ->
         printed = [SUCCESS; SUCCESS; SUCCESS; SUCCESS; SUCCESS; SUCCESS])
  /\ (serves rng 4 k ->
      exists fuel0, forall fuel, fuel0 <= fuel ->
        exists k',
          unit_test rng fuel k
          = Returned ([SUCCESS; SUCCESS; SUCCESS; SUCCESS; SUCCESS; SUCCESS],
                      k')).
Proof.
  split; [|split].
  - intros fuel e s. rewrite unit_test_unfold. unfold then_check.
    destruct (check_large_factor rng fuel k) as [H|(k' & H)]; rewrite H;
      discriminate.
  - intros fuel printed k'. rewrite unit_test_unfold. unfold then_check.
    destruct (check_large_factor rng fuel k) as [H|(k1 & H)]; rewrite H;
      [discriminate|].
    intros E. injection E as <- _. reflexivity.
  - intros Hserves.
    destruct (init_valid_terminates (list cell) (list Q) float_row row_shape rng
                xor_features xor_labels 5%Q k eq_refl xor_convertible eq_refl eq_refl Hserves)
      as (fuel0 & Hfuel).
    exists fuel0. intros fuel Hge.
    destruct (Hfuel fuel Hge) as (s & k' & Hrun).
    rewrite unit_test_unfold. unfold then_check.
    destruct (check_large_factor rng fuel k) as [H|(k1 & H)].
    + exfalso. unfold check_constructed in H. rewrite Hrun in H.
      discriminate H.
    + rewrite H. exists k1. reflexivity.
Qed.

Lemma unit_test_all_success_witness :
  exists fuel0, forall fuel, fuel0 <= fuel ->
    exists k',
      unit_test counting_rng fuel 0
      = Returned ([SUCCESS; SUCCESS; SUCCESS; SUCCESS; SUCCESS; SUCCESS], k').
Proof.
  apply (proj2 (proj2 (unit_test_all_success counting_rng 0))).
  apply counting_serves.
Defined.
